(** * Price discovery and caching subsystem of the Mandi platform

    A shallow embedding of
      - services/price-discovery/price-validation.ts
      - services/price-discovery/price-formatting.ts
      - services/price-discovery/market-data-adapter.ts
      - services/price-discovery/market-data-cache.ts
        (MarketDataCache and CachedMarketDataAdapter)
      - services/price-discovery/price-discovery-service.ts

    Modelling conventions.
      - A JavaScript number is a value of [number]: an exact rational, one of
        the two infinities, or NaN.  Arithmetic on finite values is exact
        (binary rounding error and overflow of IEEE doubles are not
        modelled); the special values follow the JavaScript rules, so
        [0/0] is NaN, [x/0] is an infinity and every comparison with NaN is
        false.  Signed zero is not modelled: in the embedded code every
        divisor is a sum started at [+0] divided by a length, which is
        never [-0].
      - A [Date] is its time value, milliseconds since the epoch, in [Z].
        The wall clock is a [Clock] record holding what [Date.now()],
        [getHours()] and [getMonth()] return; one call of an operation reads
        one instant.
      - [async] functions are run to completion; a rejected promise or a
        thrown [Error] is the [Err] constructor of [Result].
      - Strings are ASCII; [toLowerCase], [trim] and [includes] are written
        out on them. *)

From Stdlib Require Import ZArith QArith Qround Lqa Lia String Ascii List Bool.
From stdpp Require Import base gmap strings pretty.
Import ListNotations.

Local Open Scope Z_scope.

(** ** JavaScript numbers *)

Module JS.

Inductive number : Type :=
| Fin (q : Q)
| PInf
| NInf
| NaN.

Definition Qltb (a b : Q) : bool := negb (Qle_bool b a).
Definition Qeqb (a b : Q) : bool := Qeq_bool a b.

Definition isNaN (x : number) : bool :=
  match x with NaN => true | _ => false end.

Definition neg (x : number) : number :=
  match x with
  | Fin q => Fin (- q)
  | PInf => NInf
  | NInf => PInf
  | NaN => NaN
  end.

(** [a + b] *)
Definition add (a b : number) : number :=
  match a, b with
  | NaN, _ | _, NaN => NaN
  | Fin x, Fin y => Fin (x + y)
  | PInf, NInf | NInf, PInf => NaN
  | PInf, _ | _, PInf => PInf
  | NInf, _ | _, NInf => NInf
  end.

(** [a - b] *)
Definition sub (a b : number) : number := add a (neg b).

(** the infinity with the sign of [q], NaN when [q] is zero *)
Definition signedInf (q : Q) : number :=
  if Qltb 0 q then PInf else if Qltb q 0 then NInf else NaN.

(** [a * b] *)
Definition mul (a b : number) : number :=
  match a, b with
  | NaN, _ | _, NaN => NaN
  | Fin x, Fin y => Fin (x * y)
  | PInf, Fin y | Fin y, PInf => signedInf y
  | NInf, Fin y | Fin y, NInf => signedInf (- y)
  | PInf, PInf | NInf, NInf => PInf
  | PInf, NInf | NInf, PInf => NInf
  end.

(** [a / b] *)
Definition div (a b : number) : number :=
  match a, b with
  | NaN, _ | _, NaN => NaN
  | Fin x, Fin y => if Qeqb y 0 then signedInf x else Fin (x / y)
  | Fin _, PInf | Fin _, NInf => Fin 0
  | PInf, Fin y => if Qltb y 0 then NInf else PInf
  | NInf, Fin y => if Qltb y 0 then PInf else NInf
  | _, _ => NaN
  end.

(** [a < b] *)
Definition lt (a b : number) : bool :=
  match a, b with
  | NaN, _ | _, NaN => false
  | Fin x, Fin y => Qltb x y
  | NInf, NInf => false
  | NInf, _ => true
  | _, PInf => match a with PInf => false | _ => true end
  | _, _ => false
  end.

(** [a > b] *)
Definition gt (a b : number) : bool := lt b a.

(** [a <= b] *)
Definition le (a b : number) : bool :=
  match a, b with
  | NaN, _ | _, NaN => false
  | Fin x, Fin y => Qle_bool x y
  | NInf, _ => true
  | _, PInf => true
  | _, _ => false
  end.

(** [a >= b] *)
Definition ge (a b : number) : bool := le b a.

(** [Math.round(x)]: the nearest integer, ties towards +Infinity *)
Definition Math_round (x : number) : number :=
  match x with
  | Fin q => Fin (inject_Z (Qfloor (q + (1 # 2))))
  | _ => x
  end.

(** [Math.min(a, b)] and [Math.max(a, b)] *)
Definition Math_min (a b : number) : number :=
  if isNaN a || isNaN b then NaN else if lt b a then b else a.

Definition Math_max (a b : number) : number :=
  if isNaN a || isNaN b then NaN else if lt a b then b else a.

(** [Math.min(...xs)] and [Math.max(...xs)] *)
Definition Math_min_list (xs : list number) : number := fold_left Math_min xs PInf.
Definition Math_max_list (xs : list number) : number := fold_left Math_max xs NInf.

(** a number is falsy when it is zero or NaN *)
Definition truthy (x : number) : bool :=
  match x with
  | Fin q => negb (Qeqb q 0)
  | NaN => false
  | _ => true
  end.

Definition ofZ (z : Z) : number := Fin (inject_Z z).
Definition ofNat (n : nat) : number := ofZ (Z.of_nat n).

(** [xs.slice(start, end)] with the relative indices of Array.prototype.slice *)
Definition relIndex (len i : Z) : Z :=
  if i <? 0 then Z.max (len + i) 0 else Z.min i len.

Definition slice {A} (xs : list A) (start : Z) (stop : option Z) : list A :=
  let len := Z.of_nat (List.length xs) in
  let k := relIndex len start in
  let final := match stop with Some e => relIndex len e | None => len end in
  firstn (Z.to_nat (final - k)) (skipn (Z.to_nat k) xs).

(** [xs.find(p)] *)
Definition find {A} (p : A -> bool) (xs : list A) : option A := List.find p xs.

End JS.

Import JS.

Declare Scope js_scope.
Delimit Scope js_scope with js.
Infix "+" := add : js_scope.
Infix "-" := sub : js_scope.
Infix "*" := mul : js_scope.
Infix "/" := div : js_scope.
Infix "<?" := lt : js_scope.
Infix ">?" := gt : js_scope.
Infix "<=?" := le : js_scope.
Infix ">=?" := ge : js_scope.

(** decimal literals used by the source *)
Definition n0 : number := ofZ 0.
Definition n1 : number := ofZ 1.
Definition n100 : number := ofZ 100.
Definition dec (num : Z) (den : positive) : number := Fin (num # den).

(** ** Strings *)

Module Str.

Definition isSpace (c : ascii) : bool :=
  let n := nat_of_ascii c in
  ((9 <=? n) && (n <=? 13))%nat || (n =? 32)%nat.

Definition lowerChar (c : ascii) : ascii :=
  let n := nat_of_ascii c in
  if ((65 <=? n) && (n <=? 90))%nat then ascii_of_nat (n + 32) else c.

Fixpoint toLowerCase (s : string) : string :=
  match s with
  | EmptyString => EmptyString
  | String c r => String (lowerChar c) (toLowerCase r)
  end.

Fixpoint trimStart (s : string) : string :=
  match s with
  | String c r => if isSpace c then trimStart r else s
  | EmptyString => EmptyString
  end.

Fixpoint rev_string (s acc : string) : string :=
  match s with
  | EmptyString => acc
  | String c r => rev_string r (String c acc)
  end.

Definition trim (s : string) : string :=
  rev_string (trimStart (rev_string (trimStart s) EmptyString)) EmptyString.

(** [h.includes(n)] *)
Fixpoint includes (h n : string) : bool :=
  String.prefix n h ||
  match h with
  | EmptyString => false
  | String _ r => includes r n
  end.

(** [s.replace(/\s+/g, '-')] *)
Fixpoint replaceSpaces (inRun : bool) (s : string) : string :=
  match s with
  | EmptyString => EmptyString
  | String c r =>
      if isSpace c
      then (if inRun then replaceSpaces true r
            else String "-" (replaceSpaces true r))
      else String c (replaceSpaces false r)
  end.

(** [xs.join(sep)] *)
Fixpoint join (sep : string) (xs : list string) : string :=
  match xs with
  | [] => EmptyString
  | [x] => x
  | x :: r => (x ++ sep ++ join sep r)%string
  end.

End Str.

(** ** Results of fallible code *)

Inductive Result (A : Type) : Type :=
| Ok (a : A)
| Err (message : string).
Arguments Ok {A} a.
Arguments Err {A} message.

Definition bind {A B} (r : Result A) (k : A -> Result B) : Result B :=
  match r with
  | Ok a => k a
  | Err m => Err m
  end.

Notation "x <- r ;; k" := (bind r (fun x => k))
  (at level 100, r at next level, right associativity).

(** [try { body } catch (error) { handler(error.message) }] *)
Definition tryCatch {A} (body : Result A) (handler : string -> Result A) : Result A :=
  match body with
  | Ok a => Ok a
  | Err m => handler m
  end.

(** ** Data model (types.ts) *)

Definition Date := Z.

Record Clock := {
  now : Date;        (* Date.now(), new Date().getTime() *)
  getHours : Z;      (* new Date().getHours(), 0..23 *)
  getMonth : Z       (* new Date().getMonth(), 0..11 *)
}.

Module ProductQuery.
Record t := {
  name : string;
  category : string;
  location : string;
  quantity : number;
  unit : string
}.
End ProductQuery.

Module MandiPrice.
Record t := {
  product : string;
  location : string;
  price : number;
  date : Date;
  source : string;
  verified : bool
}.
End MandiPrice.

Module HistoricalPrice.
Record t := {
  date : Date;
  price : number;
  volume : number;
  location : string
}.
End HistoricalPrice.

Module PricePoint.
Record t := {
  date : Date;
  price : number;
  volume : number;
  source : string
}.
End PricePoint.

Module PriceInfo.
Record t := {
  current : number;
  minimum : number;
  maximum : number;
  average : number;
  confidence : number;
  source : string;
  lastUpdated : Date
}.
End PriceInfo.

(** [EstimatedPrice extends PriceInfo] *)
Module EstimatedPrice.
Record t := {
  info : PriceInfo.t;
  estimationMethod : string;
  historicalBasis : list PricePoint.t
}.
End EstimatedPrice.

Inductive Trend := rising | falling | stable.

Module PriceHistory.
Record t := {
  productId : string;
  location : string;
  prices : list PricePoint.t;
  trend : Trend;
  volatility : number
}.
End PriceHistory.

Record ValidationResult := {
  isValid : bool;
  errors : list string
}.

(** [if (cond) errors.push(msg)] *)
Definition pushIf (cond : bool) (msg : string) : list string :=
  if cond then [msg] else [].

Definition mkValidation (errs : list string) : ValidationResult :=
  {| isValid := (List.length errs =? 0)%nat; errors := errs |}.

(** ** price-validation.ts *)

Definition blank (s : string) : bool :=
  (String.length s =? 0)%nat || (String.length (Str.trim s) =? 0)%nat.

Definition longer (s : string) (n : nat) : bool :=
  negb (String.length s =? 0)%nat && (n <? String.length s)%nat.

Definition validateProductQuery (product : ProductQuery.t) : ValidationResult :=
  let q := ProductQuery.quantity product in
  mkValidation
    (pushIf (blank (ProductQuery.name product))
       "Product name is required and must be a non-empty string"
     ++ pushIf (blank (ProductQuery.category product))
       "Product category is required and must be a non-empty string"
     ++ pushIf (blank (ProductQuery.location product))
       "Location is required and must be a non-empty string"
     ++ pushIf (blank (ProductQuery.unit product))
       "Unit is required and must be a non-empty string"
     ++ pushIf (q <=? n0)%js
       "Quantity must be a positive number"
     ++ pushIf (longer (ProductQuery.name product) 100)
       "Product name must be 100 characters or less"
     ++ pushIf (longer (ProductQuery.category product) 50)
       "Product category must be 50 characters or less"
     ++ pushIf (longer (ProductQuery.location product) 100)
       "Location must be 100 characters or less"
     ++ pushIf (longer (ProductQuery.unit product) 20)
       "Unit must be 20 characters or less"
     ++ pushIf (truthy q && ((q >? ofZ 1000000)%js || (q <? dec 1 1000)%js))
       "Quantity must be between 0.001 and 1,000,000").

Definition dquote : string := String (ascii_of_nat 34) EmptyString.

Definition maxReasonablePrice : number := ofZ 100000.

Definition knownSource (s : string) : bool :=
  String.eqb s "official" || String.eqb s "estimated".

Definition validatePriceData (clk : Clock) (priceInfo : PriceInfo.t) : ValidationResult :=
  let current := PriceInfo.current priceInfo in
  let minimum := PriceInfo.minimum priceInfo in
  let maximum := PriceInfo.maximum priceInfo in
  let average := PriceInfo.average priceInfo in
  let confidence := PriceInfo.confidence priceInfo in
  let twentyFourHoursAgo := now clk - 24 * 60 * 60 * 1000 in
  mkValidation
    (pushIf (current <? n0)%js
       "Current price must be a non-negative number"
     ++ pushIf (minimum <? n0)%js
       "Minimum price must be a non-negative number"
     ++ pushIf (maximum <? n0)%js
       "Maximum price must be a non-negative number"
     ++ pushIf (average <? n0)%js
       "Average price must be a non-negative number"
     ++ pushIf ((confidence <? n0)%js || (confidence >? n1)%js)
       "Confidence must be a number between 0 and 1"
     ++ pushIf (negb (knownSource (PriceInfo.source priceInfo)))
       ("Source must be either " ++ dquote ++ "official" ++ dquote
        ++ " or " ++ dquote ++ "estimated" ++ dquote)%string
     ++ pushIf (minimum >? maximum)%js
       "Minimum price cannot be greater than maximum price"
     ++ pushIf ((current <? minimum)%js || (current >? maximum)%js)
       "Current price must be between minimum and maximum prices"
     ++ pushIf ((average <? minimum)%js || (average >? maximum)%js)
       "Average price must be between minimum and maximum prices"
     ++ pushIf ((current >? maxReasonablePrice)%js
                || (minimum >? maxReasonablePrice)%js
                || (maximum >? maxReasonablePrice)%js
                || (average >? maxReasonablePrice)%js)
       "Prices seem unreasonably high (above ₹100000)"
     ++ pushIf (PriceInfo.lastUpdated priceInfo <? twentyFourHoursAgo)
       "Price data is older than 24 hours and may be stale").

Definition validatePriceRange (min max current : number) : ValidationResult :=
  mkValidation
    (pushIf (min >? max)%js
       "Minimum price cannot be greater than maximum price"
     ++ pushIf (current <? min)%js
       "Current price cannot be less than minimum price"
     ++ pushIf (current >? max)%js
       "Current price cannot be greater than maximum price"
     ++ pushIf (max >? min * ofZ 3)%js
       "Price range seems unusually wide (max > 3x min)").

(** ** price-formatting.ts *)

Definition round2 (x : number) : number := (Math_round (x * n100) / n100)%js.

Definition formatPrice (price : number) : Result number :=
  if isNaN price then Err "Price must be a valid number"
  else if (price <? n0)%js then Err "Price cannot be negative"
  else Ok (round2 price).

Definition formatConfidence (confidence : number) : Result number :=
  if isNaN confidence then Err "Confidence must be a valid number"
  else if (confidence <? n0)%js || (confidence >? n1)%js
  then Err "Confidence must be between 0 and 1"
  else Ok (round2 confidence).

Definition formatPriceInfo (priceInfo : PriceInfo.t) : Result PriceInfo.t :=
  current <- formatPrice (PriceInfo.current priceInfo) ;;
  minimum <- formatPrice (PriceInfo.minimum priceInfo) ;;
  maximum <- formatPrice (PriceInfo.maximum priceInfo) ;;
  average <- formatPrice (PriceInfo.average priceInfo) ;;
  confidence <- formatConfidence (PriceInfo.confidence priceInfo) ;;
  Ok {| PriceInfo.current := current;
        PriceInfo.minimum := minimum;
        PriceInfo.maximum := maximum;
        PriceInfo.average := average;
        PriceInfo.confidence := confidence;
        PriceInfo.source := PriceInfo.source priceInfo;
        PriceInfo.lastUpdated := PriceInfo.lastUpdated priceInfo |}.

Section Display.

(** [Number.prototype.toFixed(2)] is a parameter. *)
Variable toFixed2 : number -> string.

Fixpoint chars (s : string) : list ascii :=
  match s with
  | EmptyString => []
  | String c r => c :: chars r
  end.

(** [s.split('.')] *)
Fixpoint splitDot (s : string) (current : string -> string) : list string :=
  match s with
  | EmptyString => [current EmptyString]
  | String c r =>
      if Ascii.eqb c "." then current EmptyString :: splitDot r (fun x => x)
      else splitDot r (fun x => current (String c x))
  end.

(** [parts[i]] inside a template literal *)
Definition part (parts : list string) (i : nat) : string :=
  nth i parts "undefined"%string.

(** The loop of [formatPriceForDisplay] over [reversed], at index [i]. *)
Fixpoint groupLoop (reversed : list ascii) (i : nat) (formattedInteger : string)
    : string :=
  match reversed with
  | [] => formattedInteger
  | c :: rest =>
      let withComma :=
        if (i =? 3)%nat || ((3 <? i)%nat && ((i - 3) mod 2 =? 0)%nat)
        then String "," formattedInteger else formattedInteger in
      groupLoop rest (S i) (String c withComma)
  end.

Definition formatPriceForDisplay (price : number) (currency : string) : Result string :=
  formattedPrice <- formatPrice price ;;
  let parts := splitDot (toFixed2 formattedPrice) (fun x => x) in
  let integerPart := part parts 0 in
  let decimalPart := part parts 1 in
  let formattedInteger := groupLoop (rev (chars integerPart)) 0 EmptyString in
  Ok (currency ++ formattedInteger ++ "." ++ decimalPart)%string.

Definition formatPriceRange (min max : number) (currency : string) : Result string :=
  formattedMin <- formatPriceForDisplay min currency ;;
  formattedMax <- formatPriceForDisplay max currency ;;
  Ok (formattedMin ++ " - " ++ formattedMax)%string.

End Display.

(** ** market-data-adapter.ts: GovernmentMarketDataAdapter *)

Module GovernmentMarketDataAdapter.

(** What one HTTP attempt of the client gives: a response body, a client
    error (status 4xx) or any other failure (transport, timeout, 5xx). *)
Inductive ResponseData (R : Type) : Type :=
| UnderRecords (records : list R)   (* { records: [...] } *)
| UnderData (records : list R)      (* { data: [...] } *)
| BareArray (records : list R)      (* [...] *)
| NotAnArray.                       (* any other shape *)
Arguments UnderRecords {R} records.
Arguments UnderData {R} records.
Arguments BareArray {R} records.
Arguments NotAnArray {R}.

Inductive HttpResult (R : Type) : Type :=
| Response (data : ResponseData R)
| ClientError (message : string)
| OtherError (message : string).
Arguments Response {R} data.
Arguments ClientError {R} message.
Arguments OtherError {R} message.

(** The HTTP client: the outcome of the n-th attempt of a request. *)
Definition Http (R : Type) := nat -> HttpResult R.

Definition maxRetries : nat := 3.

(** The [for (attempt = 1; attempt <= maxRetries; attempt++)] loop of
    [makeRequestWithRetry]; [remaining] counts the iterations left. *)
Fixpoint requestLoop {R} (http : Http R) (attempt remaining : nat)
    (lastError : string) : Result (ResponseData R) :=
  match remaining with
  | O => Err lastError
  | S remaining' =>
      match http attempt with
      | Response data => Ok data
      | ClientError m => Err m
      | OtherError m => requestLoop http (S attempt) remaining' m
      end
  end.

Definition makeRequestWithRetry {R} (http : Http R) : Result (ResponseData R) :=
  requestLoop http 1%nat maxRetries EmptyString.

(** A record of the current-prices endpoint, after [extractProductName],
    [parsePrice] and [parseDate] have read its fields; [pr_date] is [None]
    when the date is missing or unparseable. *)
Record PriceRecord := {
  pr_product : string;
  pr_price : number;
  pr_date : option Date
}.

Record HistoryRecord := {
  hr_date : option Date;
  hr_price : number;
  hr_volume : number
}.

(** [data.records || data.data || data], then [Array.isArray] *)
Definition recordsOf {R} (data : ResponseData R) : option (list R) :=
  match data with
  | UnderRecords rs | UnderData rs | BareArray rs => Some rs
  | NotAnArray => None
  end.

Definition parseDate (clk : Clock) (d : option Date) : Date :=
  match d with
  | Some t => t
  | None => now clk
  end.

Definition parseMandiPricesResponse (clk : Clock) (data : ResponseData PriceRecord)
    (location : string) : list MandiPrice.t :=
  match recordsOf data with
  | None => []
  | Some records =>
      filter (fun p => (MandiPrice.price p >? n0)%js)
        (map (fun r =>
                {| MandiPrice.product := pr_product r;
                   MandiPrice.location := location;
                   MandiPrice.price := pr_price r;
                   MandiPrice.date := parseDate clk (pr_date r);
                   MandiPrice.source := "government_api";
                   MandiPrice.verified := true |})
             records)
  end.

Definition parseHistoricalPricesResponse (clk : Clock)
    (data : ResponseData HistoryRecord) (location : string)
    : list HistoricalPrice.t :=
  match recordsOf data with
  | None => []
  | Some records =>
      filter (fun p => (HistoricalPrice.price p >? n0)%js)
        (map (fun r =>
                {| HistoricalPrice.date := parseDate clk (hr_date r);
                   HistoricalPrice.price := hr_price r;
                   HistoricalPrice.volume := hr_volume r;
                   HistoricalPrice.location := location |})
             records)
  end.

(** [fetchMandiPrices]: a failed request is caught and answered with []. *)
Definition fetchMandiPrices (clk : Clock) (http : Http PriceRecord)
    (location : string) (date : Date) : list MandiPrice.t :=
  match makeRequestWithRetry http with
  | Ok data => parseMandiPricesResponse clk data location
  | Err _ => []
  end.

Definition getHistoricalData (clk : Clock) (http : Http HistoryRecord)
    (product location : string) (days : Z) : list HistoricalPrice.t :=
  match makeRequestWithRetry http with
  | Ok data => parseHistoricalPricesResponse clk data location
  | Err _ => []
  end.

Definition maxAgeMs : Z := 24 * 60 * 60 * 1000.

Definition validateDataFreshness (clk : Clock) (data : MandiPrice.t) : bool :=
  let dataAge := now clk - MandiPrice.date data in
  let isFresh := dataAge <? maxAgeMs in
  let isVerified := MandiPrice.verified data in
  let hasValidPrice := (MandiPrice.price data >? n0)%js in
  isFresh && isVerified && hasValidPrice.

(** A record of the locations endpoint: the three fields
    [parseLocationsResponse] reads, each absent or a string. *)
Record LocationRecord := {
  lr_location : option string;
  lr_market : option string;
  lr_district : option string
}.

(** a field that is present and not the empty string *)
Definition truthyField (f : option string) : bool :=
  match f with
  | Some s => negb (String.length s =? 0)%nat
  | None => false
  end.

(** [record.location || record.market || record.district] *)
Definition locationName (r : LocationRecord) : option string :=
  if truthyField (lr_location r) then lr_location r
  else if truthyField (lr_market r) then lr_market r
  else lr_district r.

(** [xs.filter(Boolean)] on names *)
Fixpoint filterBoolean (xs : list (option string)) : list string :=
  match xs with
  | [] => []
  | x :: r =>
      match x with
      | Some s => if truthyField x then s :: filterBoolean r else filterBoolean r
      | None => filterBoolean r
      end
  end.

Definition getDefaultLocations : list string :=
  [ "Delhi"; "Mumbai"; "Bangalore"; "Chennai"; "Kolkata"; "Hyderabad";
    "Pune"; "Ahmedabad"; "Jaipur"; "Lucknow" ]%string.

Definition parseLocationsResponse (data : ResponseData LocationRecord) : list string :=
  match recordsOf data with
  | None => getDefaultLocations
  | Some records => filterBoolean (map locationName records)
  end.

Definition getSupportedLocations (http : Http LocationRecord) : list string :=
  match makeRequestWithRetry http with
  | Ok data => parseLocationsResponse data
  | Err _ => getDefaultLocations
  end.

Definition normalizeLocation (location : string) : string :=
  Str.replaceSpaces false (Str.trim (Str.toLowerCase location)).

End GovernmentMarketDataAdapter.

(** ** market-data-cache.ts: MarketDataCache *)

(** [date.toISOString().split('T')[0]]: the UTC calendar date of a time
    value, by the usual days-to-civil conversion. *)
Module IsoDate.

Definition msPerDay : Z := 86400000.

Definition civil (days : Z) : Z * Z * Z :=
  let z := days + 719468 in
  let era := z / 146097 in
  let doe := z - era * 146097 in
  let yoe := (doe - doe / 1460 + doe / 36524 - doe / 146096) / 365 in
  let doy := doe - (365 * yoe + yoe / 4 - yoe / 100) in
  let mp := (5 * doy + 2) / 153 in
  let d := doy - (153 * mp + 2) / 5 + 1 in
  let m := if mp <? 10 then mp + 3 else mp - 9 in
  let y := yoe + era * 400 + (if m <=? 2 then 1 else 0) in
  (y, m, d).

Fixpoint zeros (n : nat) : string :=
  match n with
  | O => EmptyString
  | S k => String "0" (zeros k)
  end.

Definition pad (width : nat) (n : Z) : string :=
  let digits := pretty n in
  (zeros (width - String.length digits) ++ digits)%string.

Definition year (y : Z) : string :=
  if (0 <=? y) && (y <=? 9999) then pad 4 y
  else if y <? 0 then ("-" ++ pad 6 (- y))%string
  else ("+" ++ pad 6 y)%string.

Definition ofDate (date : Date) : string :=
  let '(y, m, d) := civil (date / msPerDay) in
  (year y ++ "-" ++ pad 2 m ++ "-" ++ pad 2 d)%string.

End IsoDate.

Module MarketDataCache.

(** A value held under a key, as [JSON.stringify] writes it. *)
Inductive Payload :=
| PricesPayload (prices : list MandiPrice.t) (cachedAt : Date)
| HistoricalPayload (data : list HistoricalPrice.t) (cachedAt : Date).

(** The Redis server as this client sees it: each key holds a payload and
    the instant at which [setEx] lets it expire. *)
Record t := {
  isConnected : bool;
  connectionRetries : nat;
  priceTtl : Z;                            (* config.cache.priceTtl, seconds *)
  client : gmap string (Payload * Date)
}.

Definition ttl_prices (c : t) : Z := priceTtl c.
Definition ttl_historical (c : t) : Z := priceTtl c * 2.

Definition withClient (c : t) (m : gmap string (Payload * Date)) : t :=
  {| isConnected := isConnected c;
     connectionRetries := connectionRetries c;
     priceTtl := priceTtl c;
     client := m |}.

(** [connect()]; [reachable] tells whether the server accepts the
    connection. *)
Definition connect (reachable : bool) (c : t) : t :=
  if isConnected c then c
  else if reachable
  then {| isConnected := true; connectionRetries := 0;
          priceTtl := priceTtl c; client := client c |}
  else {| isConnected := false; connectionRetries := S (connectionRetries c);
          priceTtl := priceTtl c; client := client c |}.

Definition disconnect (c : t) : t :=
  {| isConnected := false; connectionRetries := connectionRetries c;
     priceTtl := priceTtl c; client := client c |}.

Definition normalize (s : string) : string :=
  Str.replaceSpaces false (Str.toLowerCase s).

Definition generateMandiPricesKey (location : string) (date : Date) : string :=
  ("mandi:prices" ++ ":" ++ normalize location ++ ":" ++ IsoDate.ofDate date)%string.

Definition generateHistoricalDataKey (product location : string) (days : Z) : string :=
  ("mandi:historical" ++ ":" ++ normalize product ++ ":" ++ normalize location
   ++ ":" ++ pretty days)%string.

(** [client.setEx(key, ttl, value)] *)
Definition setEx (clk : Clock) (key : string) (ttl : Z) (v : Payload) (c : t) : t :=
  withClient c (<[key := (v, now clk + ttl * 1000)]> (client c)).

(** [client.get(key)]: an expired key is gone. *)
Definition get (clk : Clock) (key : string) (c : t) : option Payload :=
  match client c !! key with
  | Some (v, expiry) => if now clk <? expiry then Some v else None
  | None => None
  end.

Definition cacheMandiPrices (clk : Clock) (location : string) (date : Date)
    (prices : list MandiPrice.t) (c : t) : t :=
  if negb (isConnected c) then c
  else setEx clk (generateMandiPricesKey location date) (ttl_prices c)
         (PricesPayload prices (now clk)) c.

Definition getCachedMandiPrices (clk : Clock) (location : string) (date : Date)
    (c : t) : option (list MandiPrice.t) :=
  if negb (isConnected c) then None
  else match get clk (generateMandiPricesKey location date) c with
       | Some (PricesPayload prices _) => Some prices
       | _ => None
       end.

Definition cacheHistoricalData (clk : Clock) (product location : string)
    (days : Z) (data : list HistoricalPrice.t) (c : t) : t :=
  if negb (isConnected c) then c
  else setEx clk (generateHistoricalDataKey product location days)
         (ttl_historical c) (HistoricalPayload data (now clk)) c.

Definition getCachedHistoricalData (clk : Clock) (product location : string)
    (days : Z) (c : t) : option (list HistoricalPrice.t) :=
  if negb (isConnected c) then None
  else match get clk (generateHistoricalDataKey product location days) c with
       | Some (HistoricalPayload data _) => Some data
       | _ => None
       end.

(** [client.del(key)] *)
Definition del (key : string) (c : t) : t :=
  withClient c (delete key (client c)).

Definition invalidateMandiPrices (location : string) (date : Date) (c : t) : t :=
  if negb (isConnected c) then c
  else del (generateMandiPricesKey location date) c.

End MarketDataCache.

(** ** market-data-cache.ts: CachedMarketDataAdapter *)

Module CachedMarketDataAdapter.

(** The [apiAdapter] member as the class uses it.  The fetches are promises:
    they can reject ([Err]), which is what the unit tests make the mocked
    adapter do. *)
Record ApiAdapter := {
  api_fetchMandiPrices : string -> Date -> Result (list MandiPrice.t);
  api_getHistoricalData : string -> string -> Z -> Result (list HistoricalPrice.t);
  api_validateDataFreshness : MandiPrice.t -> bool
}.

(** The adapter the constructor installs: [new GovernmentMarketDataAdapter()]
    over the HTTP outcomes of the two endpoints. *)
Definition government (clk : Clock)
    (httpPrices : GovernmentMarketDataAdapter.Http GovernmentMarketDataAdapter.PriceRecord)
    (httpHistory : GovernmentMarketDataAdapter.Http GovernmentMarketDataAdapter.HistoryRecord)
    : ApiAdapter :=
  {| api_fetchMandiPrices := fun location date =>
       Ok (GovernmentMarketDataAdapter.fetchMandiPrices clk httpPrices location date);
     api_getHistoricalData := fun product location days =>
       Ok (GovernmentMarketDataAdapter.getHistoricalData clk httpHistory product location days);
     api_validateDataFreshness :=
       GovernmentMarketDataAdapter.validateDataFreshness clk |}.

Record t := {
  cache : MarketDataCache.t;
  isInitialized : bool
}.

(** What a call finds outside the object: the clock, the API adapter and
    whether the Redis server accepts a connection. *)
Record Env := {
  clock : Clock;
  apiAdapter : ApiAdapter;
  redisReachable : bool
}.

Definition initialize (env : Env) (a : t) : t :=
  if isInitialized a then a
  else {| cache := MarketDataCache.connect (redisReachable env) (cache a);
          isInitialized := true |}.

Definition withCache (a : t) (c : MarketDataCache.t) : t :=
  {| cache := c; isInitialized := isInitialized a |}.

Definition sixHoursMs : Z := 6 * 60 * 60 * 1000.
Definition twelveHoursMs : Z := 12 * 60 * 60 * 1000.

Definition validateDataFreshness (env : Env) (data : MandiPrice.t) : bool :=
  let isBasicValid := api_validateDataFreshness (apiAdapter env) data in
  if negb isBasicValid then false
  else
    let dataAge := now (clock env) - MandiPrice.date data in
    let currentHour := getHours (clock env) in
    let maxAgeMs :=
      if (6 <=? currentHour) && (currentHour <=? 18)
      then sixHoursMs else twelveHoursMs in
    dataAge <? maxAgeMs.

Definition nonEmpty {A} (xs : option (list A)) : option (list A) :=
  match xs with
  | Some (x :: r) => Some (x :: r)
  | _ => None
  end.

(** [fetchMandiPrices(location, date)]: the value returned and the adapter
    afterwards. *)
Definition fetchMandiPrices (env : Env) (location : string) (date : Date)
    (a : t) : list MandiPrice.t * t :=
  let a := if negb (isInitialized a) then initialize env a else a in
  let clk := clock env in
  let cached := MarketDataCache.getCachedMandiPrices clk location date (cache a) in
  let freshData :=
    match nonEmpty cached with
    | Some prices => filter (validateDataFreshness env) prices
    | None => []
    end in
  match freshData with
  | _ :: _ => (freshData, a)
  | [] =>
      match api_fetchMandiPrices (apiAdapter env) location date with
      | Ok apiData =>
          match apiData with
          | _ :: _ =>
              (apiData,
               withCache a (MarketDataCache.cacheMandiPrices clk location date apiData (cache a)))
          | [] => (apiData, a)
          end
      | Err _ =>
          (* catch: the stale entry, when there is one *)
          match nonEmpty (MarketDataCache.getCachedMandiPrices clk location date (cache a)) with
          | Some staleCache => (staleCache, a)
          | None => ([], a)
          end
      end
  end.

Definition getHistoricalData (env : Env) (product location : string) (days : Z)
    (a : t) : list HistoricalPrice.t * t :=
  let a := if negb (isInitialized a) then initialize env a else a in
  let clk := clock env in
  match nonEmpty (MarketDataCache.getCachedHistoricalData clk product location days (cache a)) with
  | Some cached => (cached, a)
  | None =>
      match api_getHistoricalData (apiAdapter env) product location days with
      | Ok apiData =>
          match apiData with
          | _ :: _ =>
              (apiData,
               withCache a
                 (MarketDataCache.cacheHistoricalData clk product location days apiData (cache a)))
          | [] => (apiData, a)
          end
      | Err _ =>
          match nonEmpty (MarketDataCache.getCachedHistoricalData clk product location days (cache a)) with
          | Some fallbackCache => (fallbackCache, a)
          | None => ([], a)
          end
      end
  end.

End CachedMarketDataAdapter.

(** ** interfaces: MarketDataAdapter and AIService *)

Inductive Seasonality := peak | off_season | normal.

Record MarketContext := {
  seasonality : Seasonality;
  festivalSeason : bool;
  supplyDisruptions : option (list string);
  demandFactors : option (list string)
}.

(** What the injected market data adapter answers during one call. *)
Record MarketDataAdapter := {
  fetchMandiPrices : string -> Date -> Result (list MandiPrice.t);
  getHistoricalData : string -> string -> Z -> Result (list HistoricalPrice.t);
  validateDataFreshness : MandiPrice.t -> bool
}.

(** What the injected AI service answers during one call. *)
Record AIService := {
  estimatePriceWithAI :
    ProductQuery.t -> list PricePoint.t -> MarketContext -> Result EstimatedPrice.t
}.

Inductive Sentiment := bullish | bearish | neutral.

Module MarketSentiment.
Record t := {
  product : string;
  location : string;
  sentiment : Sentiment;
  confidence : number;
  factors : list string;
  lastAnalyzed : Date
}.
End MarketSentiment.

(** What the injected AI service answers to [generateMarketSentiment]
    during one call. *)
Record SentimentService := {
  generateMarketSentiment :
    ProductQuery.t -> list PricePoint.t -> list string -> Result MarketSentiment.t
}.

(** ** price-discovery-service.ts: PriceDiscoveryService *)

Module PriceDiscoveryService.

Section Service.

(** [Math.sqrt], which has no exact rational model, is a parameter. *)
Variable Math_sqrt : number -> number.

Record CacheEntry := {
  data : PriceInfo.t;
  timestamp : Date
}.

Record t := {
  priceCache : gmap string CacheEntry
}.

Definition create : t := {| priceCache := ∅ |}.

Definition cleanup (s : t) : t := {| priceCache := ∅ |}.

Definition CACHE_TTL_MS : Z := 5 * 60 * 1000.

Definition generateCacheKey (product : ProductQuery.t) : string :=
  (ProductQuery.name product ++ "-" ++ ProductQuery.category product ++ "-"
   ++ ProductQuery.location product)%string.

Definition isCacheValid (clk : Clock) (timestamp : Date) : bool :=
  now clk - timestamp <? CACHE_TTL_MS.

Definition isProductMatch (mandiProduct queryName queryCategory : string) : bool :=
  let normalizedMandi := Str.trim (Str.toLowerCase mandiProduct) in
  let normalizedName := Str.trim (Str.toLowerCase queryName) in
  let normalizedCategory := Str.trim (Str.toLowerCase queryCategory) in
  Str.includes normalizedMandi normalizedName
  || Str.includes normalizedMandi normalizedCategory
  || Str.includes normalizedName normalizedMandi.

Definition convertMandiPriceToPriceInfo (mandiPrice : MandiPrice.t) (source : string)
    : PriceInfo.t :=
  let price := MandiPrice.price mandiPrice in
  {| PriceInfo.current := price;
     PriceInfo.minimum := (price * dec 95 100)%js;
     PriceInfo.maximum := (price * dec 105 100)%js;
     PriceInfo.average := price;
     PriceInfo.confidence := if MandiPrice.verified mandiPrice then dec 95 100 else dec 75 100;
     PriceInfo.source := source;
     PriceInfo.lastUpdated := MandiPrice.date mandiPrice |}.

(** [xs.reduce((sum, p) => sum + p, 0)] *)
Definition sum (xs : list number) : number :=
  fold_left (fun acc p => (acc + p)%js) xs n0.

Definition length_ {A} (xs : list A) : number := ofNat (List.length xs).

Definition calculateTrend (pricePoints : list PricePoint.t) : Trend :=
  if (List.length pricePoints <? 2)%nat then stable
  else
    let recent := slice pricePoints (-7) None in
    let older := slice pricePoints 0 (Some 7) in
    let recentAvg :=
      (fold_left (fun acc p => acc + PricePoint.price p) recent n0 / length_ recent)%js in
    let olderAvg :=
      (fold_left (fun acc p => acc + PricePoint.price p) older n0 / length_ older)%js in
    let change := ((recentAvg - olderAvg) / olderAvg)%js in
    if (change >? dec 5 100)%js then rising
    else if (change <? dec (-5) 100)%js then falling
    else stable.

Definition Math_pow2 (x : number) : number := (x * x)%js.

Definition volatilityOf (prices : list number) : number :=
  let mean := (sum prices / length_ prices)%js in
  let variance :=
    (fold_left (fun acc price => acc + Math_pow2 (price - mean)) prices n0
     / length_ prices)%js in
  (Math_sqrt variance / mean)%js.

Definition calculateVolatility (pricePoints : list PricePoint.t) : number :=
  if (List.length pricePoints <? 2)%nat then n0
  else volatilityOf (map PricePoint.price pricePoints).

Definition calculateTrendMultiplier (recentPrices : list number) : number :=
  if (List.length recentPrices <? 2)%nat then n1
  else
    let half := Z.of_nat (List.length recentPrices) / 2 in
    let firstHalf := slice recentPrices 0 (Some half) in
    let secondHalf := slice recentPrices half None in
    let firstAvg := (sum firstHalf / length_ firstHalf)%js in
    let secondAvg := (sum secondHalf / length_ secondHalf)%js in
    (secondAvg / firstAvg)%js.

Definition calculateConfidence (dataPoints maxPoints : number) : number :=
  let baseConfidence := Math_min (dataPoints / maxPoints)%js n1 in
  (Math_round (baseConfidence * dec 8 10 * n100) / n100)%js.

Definition categoryBasePrices : list (string * number) :=
  [ ("vegetables", ofZ 30); ("fruits", ofZ 50); ("grains", ofZ 25);
    ("pulses", ofZ 80); ("spices", ofZ 200) ]%string.

Fixpoint lookup_key (k : string) (table : list (string * number)) : option number :=
  match table with
  | [] => None
  | (k', v) :: r => if String.eqb k k' then Some v else lookup_key k r
  end.

(** [categoryBasePrices[key] || 50].  The table is read by its own keys;
    the members every object inherits ("constructor", "__proto__") are not
    part of the model. *)
Definition basePriceOf (key : string) : number :=
  match lookup_key key categoryBasePrices with
  | Some v => if truthy v then v else ofZ 50
  | None => ofZ 50
  end.

Definition estimateFromCategory (clk : Clock) (product : ProductQuery.t)
    : EstimatedPrice.t :=
  let basePrice := basePriceOf (Str.toLowerCase (ProductQuery.category product)) in
  {| EstimatedPrice.info :=
       {| PriceInfo.current := basePrice;
          PriceInfo.minimum := (basePrice * dec 8 10)%js;
          PriceInfo.maximum := (basePrice * dec 12 10)%js;
          PriceInfo.average := basePrice;
          PriceInfo.confidence := dec 3 10;
          PriceInfo.source := "estimated";
          PriceInfo.lastUpdated := now clk |};
     EstimatedPrice.estimationMethod := "category_baseline";
     EstimatedPrice.historicalBasis := [] |}.

Definition toPricePoint (source : string) (d : HistoricalPrice.t) : PricePoint.t :=
  {| PricePoint.date := HistoricalPrice.date d;
     PricePoint.price := HistoricalPrice.price d;
     PricePoint.volume := HistoricalPrice.volume d;
     PricePoint.source := source |}.

Definition includesZ (xs : list Z) (x : Z) : bool := existsb (Z.eqb x) xs.

Definition buildMarketContext (clk : Clock) (product : ProductQuery.t)
    (historicalData : list HistoricalPrice.t) : MarketContext :=
  let currentMonth := getMonth clk in
  let cat := Str.toLowerCase (ProductQuery.category product) in
  let seasonality :=
    if String.eqb cat "vegetables" then
      if includesZ [10; 11; 0; 1] currentMonth then peak
      else if includesZ [5; 6; 7; 8] currentMonth then off_season
      else normal
    else if String.eqb cat "fruits" then
      if includesZ [2; 3; 4; 5] currentMonth then peak else normal
    else if String.eqb cat "grains" then
      if includesZ [9; 10; 11] currentMonth then off_season
      else if includesZ [3; 4; 5] currentMonth then peak
      else normal
    else normal in
  let festivalSeason := includesZ [8; 9; 10] currentMonth in
  let supplyDisruptions :=
    match historicalData with
    | [] => []
    | _ :: _ =>
        let volatility := volatilityOf (map HistoricalPrice.price historicalData) in
        pushIf (volatility >? dec 3 10)%js
          "High price volatility indicating supply issues"
    end in
  {| seasonality := seasonality;
     festivalSeason := festivalSeason;
     supplyDisruptions :=
       match supplyDisruptions with [] => None | _ => Some supplyDisruptions end;
     demandFactors :=
       if festivalSeason then Some ["Festival season increased demand"%string] else None |}.

Definition estimateFromHistoricalData (clk : Clock) (product : ProductQuery.t)
    (historicalData : list HistoricalPrice.t) : EstimatedPrice.t :=
  let prices := map HistoricalPrice.price historicalData in
  let average := (sum prices / length_ prices)%js in
  let min := Math_min_list prices in
  let max := Math_max_list prices in
  let recentPrices := map HistoricalPrice.price (slice historicalData (-7) None) in
  let trendMultiplier := calculateTrendMultiplier recentPrices in
  let current := (average * trendMultiplier)%js in
  {| EstimatedPrice.info :=
       {| PriceInfo.current := (Math_round (current * n100) / n100)%js;
          PriceInfo.minimum := (Math_round (min * dec 9 10 * n100) / n100)%js;
          PriceInfo.maximum := (Math_round (max * dec 11 10 * n100) / n100)%js;
          PriceInfo.average := (Math_round (average * n100) / n100)%js;
          PriceInfo.confidence := calculateConfidence (length_ historicalData) (ofZ 30);
          PriceInfo.source := "estimated";
          PriceInfo.lastUpdated := now clk |};
     EstimatedPrice.estimationMethod := "historical_average_with_trend";
     EstimatedPrice.historicalBasis := map (toPricePoint "historical") historicalData |}.

Definition invalidQuery (v : ValidationResult) : string :=
  ("Invalid product query: " ++ Str.join ", " (errors v))%string.

(** [estimatePrice(product)] *)
Definition estimatePrice (clk : Clock) (adapter : MarketDataAdapter) (ai : AIService)
    (product : ProductQuery.t) : Result EstimatedPrice.t :=
  let validation := validateProductQuery product in
  if negb (isValid validation) then Err (invalidQuery validation)
  else
    tryCatch
      (historicalData <-
         getHistoricalData adapter (ProductQuery.name product)
           (ProductQuery.location product) 30 ;;
       match historicalData with
       | _ :: _ =>
           let marketContext := buildMarketContext clk product historicalData in
           tryCatch
             (estimatePriceWithAI ai product
                (map (toPricePoint "historical") historicalData) marketContext)
             (fun _ => Ok (estimateFromHistoricalData clk product historicalData))
       | [] =>
           tryCatch
             (estimatePriceWithAI ai product [] (buildMarketContext clk product []))
             (fun _ => Ok (estimateFromCategory clk product))
       end)
      (fun message =>
         Err ("Failed to estimate price for " ++ ProductQuery.name product
              ++ ": " ++ message)%string).

(** The estimation branch of [getCurrentPrice]. *)
Definition fromEstimate (clk : Clock) (adapter : MarketDataAdapter) (ai : AIService)
    (product : ProductQuery.t) : Result PriceInfo.t :=
  estimated <- estimatePrice clk adapter ai product ;;
  let e := EstimatedPrice.info estimated in
  Ok {| PriceInfo.current := PriceInfo.current e;
        PriceInfo.minimum := PriceInfo.minimum e;
        PriceInfo.maximum := PriceInfo.maximum e;
        PriceInfo.average := PriceInfo.average e;
        PriceInfo.confidence := (PriceInfo.confidence e * dec 8 10)%js;
        PriceInfo.source := "estimated";
        PriceInfo.lastUpdated := now clk |}.

(** The body of the [try] block of [getCurrentPrice], up to the validated
    price. *)
Definition computeCurrentPrice (clk : Clock) (adapter : MarketDataAdapter)
    (ai : AIService) (product : ProductQuery.t) : Result PriceInfo.t :=
  mandiPrices <- fetchMandiPrices adapter (ProductQuery.location product) (now clk) ;;
  let matchingPrice :=
    find (fun price =>
            isProductMatch (MandiPrice.product price)
              (ProductQuery.name product) (ProductQuery.category product))
         mandiPrices in
  priceInfo <-
    match matchingPrice with
    | Some m =>
        if validateDataFreshness adapter m
        then Ok (convertMandiPriceToPriceInfo m "official")
        else fromEstimate clk adapter ai product
    | None => fromEstimate clk adapter ai product
    end ;;
  priceInfo <- formatPriceInfo priceInfo ;;
  if negb (isValid (validatePriceData clk priceInfo))
  then Err "Generated price data failed validation"
  else Ok priceInfo.

(** How a call of [getCurrentPrice] produced its answer. *)
Definition getCurrentPrice (clk : Clock) (adapter : MarketDataAdapter)
    (ai : AIService) (product : ProductQuery.t) (s : t) : Result PriceInfo.t * t :=
  let validation := validateProductQuery product in
  if negb (isValid validation) then (Err (invalidQuery validation), s)
  else
    let cacheKey := generateCacheKey product in
    let hit :=
      match priceCache s !! cacheKey with
      | Some cached => if isCacheValid clk (timestamp cached) then Some (data cached) else None
      | None => None
      end in
    match hit with
    | Some d => (Ok d, s)
    | None =>
        match computeCurrentPrice clk adapter ai product with
        | Ok priceInfo =>
            (Ok priceInfo,
             {| priceCache :=
                  <[cacheKey := {| data := priceInfo; timestamp := now clk |}]>
                    (priceCache s) |})
        | Err message =>
            (Err ("Failed to get price for " ++ ProductQuery.name product
                  ++ ": " ++ message)%string, s)
        end
    end.

(** [getPriceHistory(product, days)] *)
Definition getPriceHistory (adapter : MarketDataAdapter) (product : ProductQuery.t)
    (days : Z) : Result PriceHistory.t :=
  let validation := validateProductQuery product in
  if negb (isValid validation) then Err (invalidQuery validation)
  else if (days <=? 0) || (365 <? days) then Err "Days must be between 1 and 365"
  else
    tryCatch
      (historicalData <-
         getHistoricalData adapter (ProductQuery.name product)
           (ProductQuery.location product) days ;;
       let pricePoints := map (toPricePoint "official") historicalData in
       Ok {| PriceHistory.productId :=
               (ProductQuery.name product ++ "-" ++ ProductQuery.category product)%string;
             PriceHistory.location := ProductQuery.location product;
             PriceHistory.prices := pricePoints;
             PriceHistory.trend := calculateTrend pricePoints;
             PriceHistory.volatility := calculateVolatility pricePoints |})
      (fun message =>
         Err ("Failed to get price history for " ++ ProductQuery.name product
              ++ ": " ++ message)%string).

Definition isRising (t : Trend) : bool :=
  match t with rising => true | _ => false end.

Definition isFalling (t : Trend) : bool :=
  match t with falling => true | _ => false end.

Definition analyzeSentiment (priceHistory : PriceHistory.t) : Sentiment :=
  let trend := PriceHistory.trend priceHistory in
  let volatility := PriceHistory.volatility priceHistory in
  if isRising trend && (volatility <? dec 1 10)%js then bullish
  else if isFalling trend && (volatility <? dec 1 10)%js then bearish
  else if (volatility >? dec 2 10)%js then neutral
  else neutral.

Definition identifyMarketFactors (priceHistory : PriceHistory.t) : list string :=
  let factors :=
    (if isRising (PriceHistory.trend priceHistory) then ["Increasing demand"]
     else if isFalling (PriceHistory.trend priceHistory) then ["Seasonal surplus"]
     else ["Stable market conditions"])
    ++ pushIf (PriceHistory.volatility priceHistory >? dec 15 100)%js
         "Market uncertainty"
    ++ pushIf (List.length (PriceHistory.prices priceHistory) <? 10)%nat
         "Limited data availability" in
  factors ++ pushIf (List.length factors =? 0)%nat "Normal market conditions".

Definition calculateSentimentConfidence (priceHistory : PriceHistory.t) : number :=
  let confidence := dec 5 10 in
  let confidence :=
    (confidence
     + Math_min (length_ (PriceHistory.prices priceHistory) / ofZ 30) (dec 3 10))%js in
  let confidence :=
    (confidence
     + Math_max (dec 2 10 - PriceHistory.volatility priceHistory) n0)%js in
  Math_min confidence n1.

Definition identifyExternalFactors (clk : Clock) (product : ProductQuery.t)
    (priceHistory : PriceHistory.t) : list string :=
  pushIf (String.eqb (Str.toLowerCase (ProductQuery.category product)) "vegetables"
          && includesZ [5; 6; 7; 8] (getMonth clk))
    "Monsoon season affecting supply"
  ++ pushIf (PriceHistory.volatility priceHistory >? dec 2 10)%js
       "High market volatility"
  ++ (if isRising (PriceHistory.trend priceHistory) then ["Upward price trend"%string]
      else if isFalling (PriceHistory.trend priceHistory) then ["Downward price trend"%string]
      else []).

(** [getMarketSentiment(product)] *)
Definition getMarketSentiment (clk : Clock) (adapter : MarketDataAdapter)
    (ai : SentimentService) (product : ProductQuery.t) : Result MarketSentiment.t :=
  let validation := validateProductQuery product in
  if negb (isValid validation) then Err (invalidQuery validation)
  else
    tryCatch
      (priceHistory <- getPriceHistory adapter product 30 ;;
       tryCatch
         (generateMarketSentiment ai product (PriceHistory.prices priceHistory)
            (identifyExternalFactors clk product priceHistory))
         (fun _ =>
            Ok {| MarketSentiment.product := ProductQuery.name product;
                  MarketSentiment.location := ProductQuery.location product;
                  MarketSentiment.sentiment := analyzeSentiment priceHistory;
                  MarketSentiment.confidence := calculateSentimentConfidence priceHistory;
                  MarketSentiment.factors := identifyMarketFactors priceHistory;
                  MarketSentiment.lastAnalyzed := now clk |}))
      (fun message =>
         Err ("Failed to analyze market sentiment for " ++ ProductQuery.name product
              ++ ": " ++ message)%string).

End Service.
End PriceDiscoveryService.

(** * Sample data *)

Module Sample.

(** 2024-01-15 12:00 UTC, read at local hour 12 in January *)
Definition noon : Clock :=
  {| now := 1705320000000; getHours := 12; getMonth := 0 |}.

(** the same day at 18:30 local time *)
Definition evening : Clock :=
  {| now := 1705343400000; getHours := 18; getMonth := 0 |}.

Definition onion (date : Date) : MandiPrice.t :=
  {| MandiPrice.product := "Onion";
     MandiPrice.location := "Delhi";
     MandiPrice.price := dec 51 2;
     MandiPrice.date := date;
     MandiPrice.source := "government_api";
     MandiPrice.verified := true |}.

(** a source that is down: every attempt fails in transport *)
Definition sourceDown {R} : GovernmentMarketDataAdapter.Http R :=
  fun _ => GovernmentMarketDataAdapter.OtherError "ECONNREFUSED".

Definition tomato : ProductQuery.t :=
  {| ProductQuery.name := "tomato";
     ProductQuery.category := "vegetables";
     ProductQuery.location := "delhi";
     ProductQuery.quantity := ofZ 10;
     ProductQuery.unit := "kg" |}.

(** a record dated 25 hours before noon, cached ten minutes before noon
    under the key of noon's request, with the default TTL of 30 minutes *)
Definition staleOnion : MandiPrice.t := onion (now noon - 25 * 60 * 60 * 1000).

Definition staleStore : MarketDataCache.t :=
  MarketDataCache.cacheMandiPrices
    {| now := now noon - 600000; getHours := 11; getMonth := 0 |}
    "Delhi" (now noon) [staleOnion]
    {| MarketDataCache.isConnected := true;
       MarketDataCache.connectionRetries := 0;
       MarketDataCache.priceTtl := 1800;
       MarketDataCache.client := ∅ |}.

Definition staleAdapter : CachedMarketDataAdapter.t :=
  {| CachedMarketDataAdapter.cache := staleStore;
     CachedMarketDataAdapter.isInitialized := true |}.

(** [Math.sqrt] truncated to six decimals, the instance the examples run
    with *)
Definition sqrtApprox (x : number) : number :=
  match x with
  | Fin q =>
      if Qltb q 0 then NaN
      else Fin (Z.sqrt (Qnum q * 10 ^ 12 / Zpos (Qden q)) # 1000000)
  | PInf => PInf
  | _ => NaN
  end.

Definition history (date : Date) (price : number) : HistoricalPrice.t :=
  {| HistoricalPrice.date := date;
     HistoricalPrice.price := price;
     HistoricalPrice.volume := ofZ 100;
     HistoricalPrice.location := "delhi" |}.

(** an adapter whose current-price and history reads give the two lists *)
Definition adapterOf (clk : Clock) (prices : list MandiPrice.t)
    (past : list HistoricalPrice.t) : MarketDataAdapter :=
  {| fetchMandiPrices := fun _ _ => Ok prices;
     getHistoricalData := fun _ _ _ => Ok past;
     validateDataFreshness := GovernmentMarketDataAdapter.validateDataFreshness clk |}.

(** an AI service that is unavailable *)
Definition aiDown : AIService :=
  {| estimatePriceWithAI := fun _ _ _ => Err "AI service unavailable" |}.

Definition tomatoPrice (date : Date) : MandiPrice.t :=
  {| MandiPrice.product := "tomato";
     MandiPrice.location := "delhi";
     MandiPrice.price := ofZ 25;
     MandiPrice.date := date;
     MandiPrice.source := "government_api";
     MandiPrice.verified := true |}.

(** a source with one verified tomato record of this instant and no
    history *)
Definition tomatoSource : MarketDataAdapter :=
  adapterOf noon [tomatoPrice (now noon)] [].

(** a source without current prices whose history is the given prices *)
Definition historySource (prices : list number) : MarketDataAdapter :=
  adapterOf noon [] (map (history (now noon - 86400000)) prices).

(** one minute after noon *)
Definition noonPlusOne : Clock :=
  {| now := now noon + 60000; getHours := 12; getMonth := 0 |}.

(** a source whose tomato record is 30 seconds short of 24 hours old at
    noon *)
Definition agingSource : MarketDataAdapter :=
  adapterOf noon [tomatoPrice (now noon - (86400000 - 30000))] [].

(** a source that answers the first attempt with two records, one of them
    without a usable price *)
Definition sourceUp : GovernmentMarketDataAdapter.Http GovernmentMarketDataAdapter.PriceRecord :=
  fun _ =>
    GovernmentMarketDataAdapter.Response
      (GovernmentMarketDataAdapter.UnderRecords
         [ {| GovernmentMarketDataAdapter.pr_product := "Onion";
              GovernmentMarketDataAdapter.pr_price := dec 51 2;
              GovernmentMarketDataAdapter.pr_date := None |};
           {| GovernmentMarketDataAdapter.pr_product := "Potato";
              GovernmentMarketDataAdapter.pr_price := n0;
              GovernmentMarketDataAdapter.pr_date := None |} ]).

(** a source that answers only on the third attempt *)
Definition sourceFlaky : GovernmentMarketDataAdapter.Http GovernmentMarketDataAdapter.PriceRecord :=
  fun attempt =>
    if (attempt <? 3)%nat then GovernmentMarketDataAdapter.OtherError "ETIMEDOUT"
    else sourceUp attempt.

(** a store that holds, since ten minutes before noon, a record dated one
    hour before noon and the record dated 25 hours before noon *)
Definition freshOnion : MandiPrice.t := onion (now noon - 60 * 60 * 1000).

Definition mixedStore : MarketDataCache.t :=
  MarketDataCache.cacheMandiPrices
    {| now := now noon - 600000; getHours := 11; getMonth := 0 |}
    "Delhi" (now noon) [staleOnion; freshOnion]
    {| MarketDataCache.isConnected := true;
       MarketDataCache.connectionRetries := 0;
       MarketDataCache.priceTtl := 1800;
       MarketDataCache.client := ∅ |}.

Definition mixedAdapter : CachedMarketDataAdapter.t :=
  {| CachedMarketDataAdapter.cache := mixedStore;
     CachedMarketDataAdapter.isInitialized := true |}.

(** an adapter that was never initialised, with an empty store *)
Definition newAdapter : CachedMarketDataAdapter.t :=
  {| CachedMarketDataAdapter.cache :=
       {| MarketDataCache.isConnected := false;
          MarketDataCache.connectionRetries := 0;
          MarketDataCache.priceTtl := 1800;
          MarketDataCache.client := ∅ |};
     CachedMarketDataAdapter.isInitialized := false |}.

(** an adapter whose store holds, since ten minutes before noon, a 30-day
    series of one point dated 40 days before noon *)
Definition oldPoint : HistoricalPrice.t := history (now noon - 40 * 86400000) (ofZ 20).

Definition historyAdapter : CachedMarketDataAdapter.t :=
  {| CachedMarketDataAdapter.cache :=
       MarketDataCache.cacheHistoricalData
         {| now := now noon - 600000; getHours := 11; getMonth := 0 |}
         "Onion" "Delhi" 30 [oldPoint]
         {| MarketDataCache.isConnected := true;
            MarketDataCache.connectionRetries := 0;
            MarketDataCache.priceTtl := 1800;
            MarketDataCache.client := ∅ |};
     CachedMarketDataAdapter.isInitialized := true |}.

(** six minutes after noon *)
Definition noonPlusSix : Clock :=
  {| now := now noon + 360000; getHours := 12; getMonth := 0 |}.

(** an AI service whose sentiment generation is unavailable *)
Definition sentimentDown : SentimentService :=
  {| generateMarketSentiment := fun _ _ _ => Err "AI service unavailable" |}.

(** a rendering of non-negative numbers with two fractional digits, as
    [toFixed(2)] prints them *)
Definition toFixed2 (n : number) : string :=
  match n with
  | Fin q =>
      let c := Qfloor (q * inject_Z 100 + (1 # 2)) in
      let r := c mod 100 in
      let pad := if r <? 10 then "0"%string else EmptyString in
      (pretty (c / 100) ++ "." ++ pad ++ pretty r)%string
  | PInf => "Infinity"
  | NInf => "-Infinity"
  | NaN => "NaN"
  end.

Definition redOnion : ProductQuery.t :=
  {| ProductQuery.name := "red-onion";
     ProductQuery.category := "vegetables";
     ProductQuery.location := "delhi";
     ProductQuery.quantity := ofZ 10;
     ProductQuery.unit := "kg" |}.

Definition red : ProductQuery.t :=
  {| ProductQuery.name := "red";
     ProductQuery.category := "onion-vegetables";
     ProductQuery.location := "delhi";
     ProductQuery.quantity := ofZ 2;
     ProductQuery.unit := "kg" |}.

End Sample.

(** * Vocabulary of the properties *)

Definition positive (x : number) : Prop :=
  match x with
  | Fin q => (0 < q)%Q
  | PInf => True
  | _ => False
  end.

Definition age (clk : Clock) (data : MandiPrice.t) : Z :=
  now clk - MandiPrice.date data.

Definition hoursMs (h : Z) : Z := h * 60 * 60 * 1000.

Definition marketHours (clk : Clock) : Prop := 6 <= getHours clk <= 18.

Definition governmentEnv (clk : Clock)
    (httpPrices : GovernmentMarketDataAdapter.Http GovernmentMarketDataAdapter.PriceRecord)
    (httpHistory : GovernmentMarketDataAdapter.Http GovernmentMarketDataAdapter.HistoryRecord)
    (reachable : bool) : CachedMarketDataAdapter.Env :=
  {| CachedMarketDataAdapter.clock := clk;
     CachedMarketDataAdapter.apiAdapter :=
       CachedMarketDataAdapter.government clk httpPrices httpHistory;
     CachedMarketDataAdapter.redisReachable := reachable |}.

Definition storeOf (a : CachedMarketDataAdapter.t) : gmap string (MarketDataCache.Payload * Date) :=
  MarketDataCache.client (CachedMarketDataAdapter.cache a).

(** What a fetch may do to the store: leave it as it is, or put the
    non-empty list the API returned under the key of the request. *)
Definition writesOnly {A} (before after : gmap string (MarketDataCache.Payload * Date))
    (key : string) (payload : list A -> Date -> MarketDataCache.Payload)
    (clk : Clock) (fetched : Result (list A)) : Prop :=
  after = before
  \/ exists x xs expiry,
       fetched = Ok (x :: xs)
       /\ after = <[key := (payload (x :: xs) (now clk), expiry)]> before.

(** States of the service that calls of its public operations can produce
    from a freshly constructed one. *)
Inductive reachable (Math_sqrt : number -> number) : PriceDiscoveryService.t -> Prop :=
| reach_create : reachable Math_sqrt PriceDiscoveryService.create
| reach_getCurrentPrice clk adapter ai product s :
    reachable Math_sqrt s ->
    reachable Math_sqrt
      (snd (PriceDiscoveryService.getCurrentPrice Math_sqrt clk adapter ai product s))
| reach_cleanup s :
    reachable Math_sqrt s -> reachable Math_sqrt (PriceDiscoveryService.cleanup s).

(** [minimum <= current <= maximum], [minimum <= average <= maximum] and
    [0 <= confidence <= 1], with the comparisons of JavaScript. *)
Definition wellFormed (p : PriceInfo.t) : Prop :=
  (PriceInfo.minimum p <=? PriceInfo.current p)%js = true
  /\ (PriceInfo.current p <=? PriceInfo.maximum p)%js = true
  /\ (PriceInfo.minimum p <=? PriceInfo.average p)%js = true
  /\ (PriceInfo.average p <=? PriceInfo.maximum p)%js = true
  /\ (n0 <=? PriceInfo.confidence p)%js = true
  /\ (PriceInfo.confidence p <=? n1)%js = true.

(** [p] came out of [formatPriceInfo] and was accepted by
    [validatePriceData] at the instant [clk]. *)
Definition formattedAndValidated (clk : Clock) (p : PriceInfo.t) : Prop :=
  exists raw, formatPriceInfo raw = Ok p
              /\ isValid (validatePriceData clk p) = true.

Definition sameKey (q1 q2 : ProductQuery.t) : Prop :=
  ProductQuery.name q2 = ProductQuery.name q1
  /\ ProductQuery.category q2 = ProductQuery.category q1
  /\ ProductQuery.location q2 = ProductQuery.location q1.

(** What an accepted [PriceInfo] has passed. *)
Record accepted (clk : Clock) (p : PriceInfo.t) : Prop := {
  acc_current : (PriceInfo.current p <? n0)%js = false;
  acc_minimum : (PriceInfo.minimum p <? n0)%js = false;
  acc_maximum : (PriceInfo.maximum p <? n0)%js = false;
  acc_average : (PriceInfo.average p <? n0)%js = false;
  acc_confidence :
    ((PriceInfo.confidence p <? n0)%js || (PriceInfo.confidence p >? n1)%js) = false;
  acc_source : knownSource (PriceInfo.source p) = true;
  acc_order : (PriceInfo.minimum p >? PriceInfo.maximum p)%js = false;
  acc_current_range :
    ((PriceInfo.current p <? PriceInfo.minimum p)%js
     || (PriceInfo.current p >? PriceInfo.maximum p)%js) = false;
  acc_average_range :
    ((PriceInfo.average p <? PriceInfo.minimum p)%js
     || (PriceInfo.average p >? PriceInfo.maximum p)%js) = false;
  acc_ceiling :
    ((PriceInfo.current p >? maxReasonablePrice)%js
     || (PriceInfo.minimum p >? maxReasonablePrice)%js
     || (PriceInfo.maximum p >? maxReasonablePrice)%js
     || (PriceInfo.average p >? maxReasonablePrice)%js) = false;
  acc_recent : (PriceInfo.lastUpdated p <? now clk - 24 * 60 * 60 * 1000) = false
}.

Definition finite (x : number) : Prop := exists q, x = Fin q.

(** Every entry of the short-term cache was formatted and validated at the
    instant it was stored. *)
Definition cacheValidated (s : PriceDiscoveryService.t) : Prop :=
  forall k e, PriceDiscoveryService.priceCache s !! k = Some e ->
    exists clk0, formattedAndValidated clk0 (PriceDiscoveryService.data e)
                 /\ PriceDiscoveryService.timestamp e = now clk0.

(** The arithmetic mean, the first [n] and the last [n] elements of a
    series. *)
Definition mean (xs : list number) : number :=
  (fold_left add xs n0 / ofNat (List.length xs))%js.

Definition firstN {A} (n : nat) (xs : list A) : list A := firstn n xs.

Definition lastN {A} (n : nat) (xs : list A) : list A :=
  skipn (List.length xs - n) xs.

(** (mean of the last 7 - mean of the first 7) / mean of the first 7 *)
Definition relativeChange (points : list PricePoint.t) : number :=
  let prices := map PricePoint.price points in
  ((mean (lastN 7 prices) - mean (firstN 7 prices)) / mean (firstN 7 prices))%js.





(** [k] hundredths, the shape of every rounded value *)
Definition hundredths (k : Z) : Q := (inject_Z k / inject_Z 100)%Q.

(** the number of hundredths [Math.round(q * 100)] gives *)
Definition cents (q : Q) : Z := Qfloor (q * inject_Z 100 + (1 # 2)).

(** a string field that is not blank and at most [maxLen] characters long *)
Definition fieldOk (s : string) (maxLen : nat) : Prop :=
  blank s = false /\ (String.length s <= maxLen)%nat.

(** a quantity [validateProductQuery] lets through: within 0.001 .. 1,000,000,
    or NaN *)
Definition quantityOk (q : number) : Prop :=
  q = NaN \/ exists r, q = Fin r /\ ((1 # 1000) <= r)%Q /\ (r <= 1000000)%Q.

(** a [PriceInfo] whose five numbers are finite *)
Definition finiteInfo (p : PriceInfo.t) (current minimum maximum average confidence : Q)
    : Prop :=
  PriceInfo.current p = Fin current
  /\ PriceInfo.minimum p = Fin minimum
  /\ PriceInfo.maximum p = Fin maximum
  /\ PriceInfo.average p = Fin average
  /\ PriceInfo.confidence p = Fin confidence.

(** every attempt before the [k]-th failed with an error that is retried *)
Definition retriedBefore {R} (http : GovernmentMarketDataAdapter.Http R) (k : nat) : Prop :=
  forall j, (1 <= j < k)%nat ->
    exists m, http j = GovernmentMarketDataAdapter.OtherError m.

(** the adapter after the [if (!this.isInitialized) await this.initialize()]
    that opens every operation *)
Definition initialized (env : CachedMarketDataAdapter.Env) (a : CachedMarketDataAdapter.t)
    : CachedMarketDataAdapter.t :=
  if negb (CachedMarketDataAdapter.isInitialized a)
  then CachedMarketDataAdapter.initialize env a else a.

(** [env] with other answers of the API adapter's two fetches *)
Definition withFetch (env : CachedMarketDataAdapter.Env)
    (fetch : string -> Date -> Result (list MandiPrice.t))
    (history : string -> string -> Z -> Result (list HistoricalPrice.t))
    : CachedMarketDataAdapter.Env :=
  {| CachedMarketDataAdapter.clock := CachedMarketDataAdapter.clock env;
     CachedMarketDataAdapter.apiAdapter :=
       {| CachedMarketDataAdapter.api_fetchMandiPrices := fetch;
          CachedMarketDataAdapter.api_getHistoricalData := history;
          CachedMarketDataAdapter.api_validateDataFreshness :=
            CachedMarketDataAdapter.api_validateDataFreshness
              (CachedMarketDataAdapter.apiAdapter env) |};
     CachedMarketDataAdapter.redisReachable := CachedMarketDataAdapter.redisReachable env |}.

(** what a resolved or rejected fetch is worth to the caller *)
Definition orEmpty {A} (r : Result (list A)) : list A :=
  match r with
  | Ok xs => xs
  | Err _ => []
  end.

(** the short-term cache has no usable entry for the query at [clk] *)
Definition cacheMiss (clk : Clock) (product : ProductQuery.t)
    (s : PriceDiscoveryService.t) : Prop :=
  forall e,
    PriceDiscoveryService.priceCache s !! PriceDiscoveryService.generateCacheKey product
      = Some e ->
    PriceDiscoveryService.isCacheValid clk (PriceDiscoveryService.timestamp e) = false.

(** the first record of [prices] that matches the query *)
Definition matchingPrice (product : ProductQuery.t) (prices : list MandiPrice.t)
    : option MandiPrice.t :=
  JS.find (fun price =>
             PriceDiscoveryService.isProductMatch (MandiPrice.product price)
               (ProductQuery.name product) (ProductQuery.category product))
          prices.

(** Indian numbering, read from the units upwards: after the first group of
    three digits come groups of two, with a comma between neighbouring
    groups. *)
Fixpoint pairs (l : list ascii) : list ascii :=
  match l with
  | a :: b :: rest =>
      a :: b :: match rest with [] => [] | _ :: _ => ","%char :: pairs rest end
  | _ => l
  end.

Definition furtherGroups (l : list ascii) : list ascii :=
  match l with [] => [] | _ :: _ => ","%char :: pairs l end.

Definition indianRev (l : list ascii) : list ascii :=
  match l with
  | a :: b :: c :: rest => a :: b :: c :: furtherGroups rest
  | _ => l
  end.

Definition indianGrouping (s : string) : string :=
  string_of_list_ascii (rev (indianRev (rev (chars s)))).

Definition notComma (c : ascii) : bool := negb (Ascii.eqb c ",").

Definition withoutCommas (s : string) : string :=
  string_of_list_ascii (List.filter notComma (chars s)).

(** * Properties *)

(** ** Numbers *)

Lemma Qltb_lt (a b : Q) : Qltb a b = true <-> (a < b)%Q.
Proof.
  unfold Qltb. rewrite negb_true_iff.
  split; intros H.
  - apply Qnot_le_lt. intros Hle. apply Qle_bool_iff in Hle. congruence.
  - destruct (Qle_bool b a) eqn:E; [|reflexivity].
    apply Qle_bool_iff in E. apply Qle_not_lt in E. contradiction.
Qed.

Lemma Qltb_ge (a b : Q) : Qltb a b = false <-> (b <= a)%Q.
Proof.
  unfold Qltb. rewrite negb_false_iff. apply Qle_bool_iff.
Qed.

Lemma gt_zero_positive (x : number) : (x >? n0)%js = true <-> positive x.
Proof.
  destruct x; simpl; try tauto; try (split; [discriminate | tauto]).
  apply Qltb_lt.
Qed.

(** ** The source client's freshness check *)

Lemma source_validateDataFreshness_basic (clk : Clock) (data : MandiPrice.t) :
  age clk data < hoursMs 24 ->
  MandiPrice.verified data = true ->
  positive (MandiPrice.price data) ->
  GovernmentMarketDataAdapter.validateDataFreshness clk data = true.
Proof.
  unfold GovernmentMarketDataAdapter.validateDataFreshness,
    GovernmentMarketDataAdapter.maxAgeMs, age, hoursMs.
  intros Hage Hver Hpos.
  apply gt_zero_positive in Hpos. rewrite Hver, Hpos.
  replace (now clk - MandiPrice.date data <? 24 * 60 * 60 * 1000) with true;
    [reflexivity|].
  symmetry. apply Z.ltb_lt. lia.
Qed.

(** C6: the source client's [validateDataFreshness] accepts a record exactly
    when its age is strictly below 24 hours, it is verified and its price is
    strictly positive; in particular a record that is 24 hours old or older,
    or whose [verified] flag is false, is rejected. *)
Theorem source_validateDataFreshness_iff (clk : Clock) (data : MandiPrice.t) :
  (GovernmentMarketDataAdapter.validateDataFreshness clk data = true
     <-> age clk data < hoursMs 24
         /\ MandiPrice.verified data = true
         /\ positive (MandiPrice.price data))
  /\ (hoursMs 24 <= age clk data ->
      GovernmentMarketDataAdapter.validateDataFreshness clk data = false)
  /\ (MandiPrice.verified data = false ->
      GovernmentMarketDataAdapter.validateDataFreshness clk data = false).
Proof.
  unfold GovernmentMarketDataAdapter.validateDataFreshness,
    GovernmentMarketDataAdapter.maxAgeMs, age, hoursMs.
  split; [|split].
  - rewrite !andb_true_iff, Z.ltb_lt, gt_zero_positive.
    split; intros H; repeat split; try tauto; lia.
  - intros Hold.
    replace (now clk - MandiPrice.date data <? 24 * 60 * 60 * 1000) with false;
      [reflexivity|].
    symmetry. apply Z.ltb_ge. lia.
  - intros Hver. rewrite Hver. rewrite andb_false_r. reflexivity.
Qed.

(** ** The cached adapter's freshness check *)

(** C5: a record that passes the basic check (younger than 24 hours,
    verified, positive price) is accepted by the cached adapter's enhanced
    check exactly when its age is below 6 hours while the local hour
    [getHours()] lies in 6..18, and below 12 hours at any other hour. *)
Theorem cached_validateDataFreshness_threshold
    (clk : Clock) httpPrices httpHistory reachable (data : MandiPrice.t) :
  age clk data < hoursMs 24 ->
  MandiPrice.verified data = true ->
  positive (MandiPrice.price data) ->
  let env := governmentEnv clk httpPrices httpHistory reachable in
  (marketHours clk ->
     (CachedMarketDataAdapter.validateDataFreshness env data = true
        <-> age clk data < hoursMs 6))
  /\ (~ marketHours clk ->
     (CachedMarketDataAdapter.validateDataFreshness env data = true
        <-> age clk data < hoursMs 12)).
Proof.
  intros Hage Hver Hpos env.
  assert (Hbasic : GovernmentMarketDataAdapter.validateDataFreshness clk data = true).
  { apply (source_validateDataFreshness_basic clk data); auto. }
  unfold CachedMarketDataAdapter.validateDataFreshness, marketHours.
  subst env. cbn [governmentEnv CachedMarketDataAdapter.apiAdapter
    CachedMarketDataAdapter.clock CachedMarketDataAdapter.government
    CachedMarketDataAdapter.api_validateDataFreshness].
  rewrite Hbasic. cbn [negb].
  unfold age, hoursMs, CachedMarketDataAdapter.sixHoursMs,
    CachedMarketDataAdapter.twelveHoursMs in *.
  split; intros Hh.
  - replace ((6 <=? getHours clk) && (getHours clk <=? 18)) with true.
    + rewrite Z.ltb_lt. lia.
    + symmetry. apply andb_true_iff. split; apply Z.leb_le; lia.
  - replace ((6 <=? getHours clk) && (getHours clk <=? 18)) with false.
    + rewrite Z.ltb_lt. lia.
    + symmetry. apply andb_false_iff.
      destruct (Z.leb_spec 6 (getHours clk)); [right|left; reflexivity].
      apply Z.leb_gt. lia.
Qed.

Lemma cached_validateDataFreshness_threshold_witness :
  let data := Sample.onion (now Sample.noon - hoursMs 1) in
  let env := governmentEnv Sample.noon Sample.sourceDown Sample.sourceDown true in
  age Sample.noon data < hoursMs 24
  /\ MandiPrice.verified data = true
  /\ positive (MandiPrice.price data)
  /\ (marketHours Sample.noon ->
        (CachedMarketDataAdapter.validateDataFreshness env data = true
           <-> age Sample.noon data < hoursMs 6))
  /\ (~ marketHours Sample.noon ->
        (CachedMarketDataAdapter.validateDataFreshness env data = true
           <-> age Sample.noon data < hoursMs 12)).
Proof.
  intros data env.
  assert (H1 : age Sample.noon data < hoursMs 24) by (vm_compute; reflexivity).
  assert (H2 : MandiPrice.verified data = true) by reflexivity.
  assert (H3 : positive (MandiPrice.price data)) by (vm_compute; reflexivity).
  split; [exact H1|]. split; [exact H2|]. split; [exact H3|].
  exact (cached_validateDataFreshness_threshold Sample.noon Sample.sourceDown
           Sample.sourceDown true data H1 H2 H3).
Defined.

(** ** The cached adapter's write-through *)

Lemma connect_client (reachable : bool) (c : MarketDataCache.t) :
  MarketDataCache.client (MarketDataCache.connect reachable c) = MarketDataCache.client c.
Proof.
  unfold MarketDataCache.connect.
  destruct (MarketDataCache.isConnected c), reachable; reflexivity.
Qed.

Lemma initialize_store (env : CachedMarketDataAdapter.Env) (a : CachedMarketDataAdapter.t) :
  storeOf (if negb (CachedMarketDataAdapter.isInitialized a)
           then CachedMarketDataAdapter.initialize env a else a) = storeOf a.
Proof.
  unfold CachedMarketDataAdapter.initialize, storeOf.
  destruct (CachedMarketDataAdapter.isInitialized a); simpl; [reflexivity|].
  apply connect_client.
Qed.

Lemma cacheMandiPrices_client clk location date prices c :
  MarketDataCache.client (MarketDataCache.cacheMandiPrices clk location date prices c)
  = MarketDataCache.client c
  \/ exists expiry,
       MarketDataCache.client (MarketDataCache.cacheMandiPrices clk location date prices c)
       = <[MarketDataCache.generateMandiPricesKey location date :=
             (MarketDataCache.PricesPayload prices (now clk), expiry)]>
           (MarketDataCache.client c).
Proof.
  unfold MarketDataCache.cacheMandiPrices.
  destruct (MarketDataCache.isConnected c); simpl; [|left; reflexivity].
  right. eexists. reflexivity.
Qed.

Lemma cacheHistoricalData_client clk product location days data c :
  MarketDataCache.client (MarketDataCache.cacheHistoricalData clk product location days data c)
  = MarketDataCache.client c
  \/ exists expiry,
       MarketDataCache.client
         (MarketDataCache.cacheHistoricalData clk product location days data c)
       = <[MarketDataCache.generateHistoricalDataKey product location days :=
             (MarketDataCache.HistoricalPayload data (now clk), expiry)]>
           (MarketDataCache.client c).
Proof.
  unfold MarketDataCache.cacheHistoricalData.
  destruct (MarketDataCache.isConnected c); simpl; [|left; reflexivity].
  right. eexists. reflexivity.
Qed.

(** C10: [fetchMandiPrices] and [getHistoricalData] of the cached adapter
    change the cache store only by writing the non-empty array that the API
    adapter returned; when the API fetch fails or returns an empty array the
    store, and with it any entry already under the key, stays as it was. *)
Theorem cached_adapter_never_writes_empty
    (env : CachedMarketDataAdapter.Env) (a : CachedMarketDataAdapter.t)
    (product location : string) (date : Date) (days : Z) :
  let api := CachedMarketDataAdapter.apiAdapter env in
  let clk := CachedMarketDataAdapter.clock env in
  let afterPrices := snd (CachedMarketDataAdapter.fetchMandiPrices env location date a) in
  let afterHistory := snd (CachedMarketDataAdapter.getHistoricalData env product location days a) in
  writesOnly (storeOf a) (storeOf afterPrices)
    (MarketDataCache.generateMandiPricesKey location date)
    MarketDataCache.PricesPayload clk
    (CachedMarketDataAdapter.api_fetchMandiPrices api location date)
  /\ writesOnly (storeOf a) (storeOf afterHistory)
    (MarketDataCache.generateHistoricalDataKey product location days)
    MarketDataCache.HistoricalPayload clk
    (CachedMarketDataAdapter.api_getHistoricalData api product location days)
  /\ ((forall prices, CachedMarketDataAdapter.api_fetchMandiPrices api location date = Ok prices ->
         prices = []) ->
      storeOf afterPrices = storeOf a)
  /\ ((forall data, CachedMarketDataAdapter.api_getHistoricalData api product location days = Ok data ->
         data = []) ->
      storeOf afterHistory = storeOf a).
Proof.
  intros api clk afterPrices afterHistory.
  assert (HP : writesOnly (storeOf a) (storeOf afterPrices)
    (MarketDataCache.generateMandiPricesKey location date)
    MarketDataCache.PricesPayload clk
    (CachedMarketDataAdapter.api_fetchMandiPrices api location date)).
  { subst afterPrices api clk. unfold CachedMarketDataAdapter.fetchMandiPrices.
    pose proof (initialize_store env a) as Hinit.
    set (a0 := if negb (CachedMarketDataAdapter.isInitialized a)
               then CachedMarketDataAdapter.initialize env a else a) in *.
    unfold writesOnly. rewrite <- Hinit.
    destruct (match CachedMarketDataAdapter.nonEmpty _ with
              | Some prices => filter _ prices | None => [] end);
      [|left; reflexivity].
    destruct (CachedMarketDataAdapter.api_fetchMandiPrices _ location date)
      as [[|x xs]|m]; simpl.
    - left; reflexivity.
    - destruct (cacheMandiPrices_client (CachedMarketDataAdapter.clock env)
                  location date (x :: xs) (CachedMarketDataAdapter.cache a0))
        as [H|[e H]].
      + left. exact H.
      + right. exists x, xs, e. split; [reflexivity|exact H].
    - destruct (CachedMarketDataAdapter.nonEmpty _); left; reflexivity. }
  assert (HH : writesOnly (storeOf a) (storeOf afterHistory)
    (MarketDataCache.generateHistoricalDataKey product location days)
    MarketDataCache.HistoricalPayload clk
    (CachedMarketDataAdapter.api_getHistoricalData api product location days)).
  { subst afterHistory api clk. unfold CachedMarketDataAdapter.getHistoricalData.
    pose proof (initialize_store env a) as Hinit.
    set (a0 := if negb (CachedMarketDataAdapter.isInitialized a)
               then CachedMarketDataAdapter.initialize env a else a) in *.
    unfold writesOnly. rewrite <- Hinit.
    destruct (CachedMarketDataAdapter.nonEmpty
                (MarketDataCache.getCachedHistoricalData _ product location days _));
      [left; reflexivity|].
    destruct (CachedMarketDataAdapter.api_getHistoricalData _ product location days)
      as [[|x xs]|m]; simpl.
    - left; reflexivity.
    - destruct (cacheHistoricalData_client (CachedMarketDataAdapter.clock env)
                  product location days (x :: xs) (CachedMarketDataAdapter.cache a0))
        as [H|[e H]].
      + left. exact H.
      + right. exists x, xs, e. split; [reflexivity|exact H].
    - left; reflexivity. }
  split; [exact HP|]. split; [exact HH|]. split.
  - intros Hempty. destruct HP as [H|(x & xs & e & Hf & _)]; [exact H|].
    specialize (Hempty _ Hf). discriminate.
  - intros Hempty. destruct HH as [H|(x & xs & e & Hf & _)]; [exact H|].
    specialize (Hempty _ Hf). discriminate.
Qed.

(** ** The cached adapter when the source fails *)

Lemma requestLoop_all_fail {R} (http : GovernmentMarketDataAdapter.Http R)
    (attempt remaining : nat) (lastError : string) :
  (forall n, exists m, http n = GovernmentMarketDataAdapter.ClientError m
                       \/ http n = GovernmentMarketDataAdapter.OtherError m) ->
  exists m, GovernmentMarketDataAdapter.requestLoop http attempt remaining lastError = Err m.
Proof.
  intros Hfail. revert attempt lastError.
  induction remaining as [|k IH]; intros attempt lastError; simpl.
  - eexists; reflexivity.
  - destruct (Hfail attempt) as [m [H|H]]; rewrite H.
    + eexists; reflexivity.
    + apply IH.
Qed.

(** The source client absorbs every failure: the promise of its
    [fetchMandiPrices] resolves to [[]] and never rejects. *)
Lemma source_failure_is_empty (clk : Clock)
    (http : GovernmentMarketDataAdapter.Http GovernmentMarketDataAdapter.PriceRecord)
    (location : string) (date : Date) :
  (forall n, exists m, http n = GovernmentMarketDataAdapter.ClientError m
                       \/ http n = GovernmentMarketDataAdapter.OtherError m) ->
  GovernmentMarketDataAdapter.fetchMandiPrices clk http location date = [].
Proof.
  intros Hfail. unfold GovernmentMarketDataAdapter.fetchMandiPrices,
    GovernmentMarketDataAdapter.makeRequestWithRetry.
  destruct (requestLoop_all_fail http 1%nat GovernmentMarketDataAdapter.maxRetries
              EmptyString Hfail) as [m ->].
  reflexivity.
Qed.

(** With the adapter the constructor installs, a failing source and a cache
    entry none of whose records is fresh, the cached adapter answers [[]]:
    the [catch] block that would serve the stale entry is not reached. *)
Lemma cached_fetch_source_down
    (clk : Clock) http httpHistory reachable (a : CachedMarketDataAdapter.t)
    (location : string) (date : Date) (stale : list MandiPrice.t) :
  let env := governmentEnv clk http httpHistory reachable in
  CachedMarketDataAdapter.isInitialized a = true ->
  (forall n, exists m, http n = GovernmentMarketDataAdapter.ClientError m
                       \/ http n = GovernmentMarketDataAdapter.OtherError m) ->
  MarketDataCache.getCachedMandiPrices clk location date
    (CachedMarketDataAdapter.cache a) = Some stale ->
  filter (CachedMarketDataAdapter.validateDataFreshness env) stale = [] ->
  CachedMarketDataAdapter.fetchMandiPrices env location date a = ([], a).
Proof.
  intros env Hinit Hfail Hcached Hstale.
  unfold CachedMarketDataAdapter.fetchMandiPrices. rewrite Hinit. cbn [negb].
  subst env. cbn [governmentEnv CachedMarketDataAdapter.clock
    CachedMarketDataAdapter.apiAdapter CachedMarketDataAdapter.government
    CachedMarketDataAdapter.api_fetchMandiPrices].
  rewrite Hcached.
  rewrite (source_failure_is_empty clk http location date Hfail).
  destruct stale as [|x xs]; simpl CachedMarketDataAdapter.nonEmpty; cbv iota.
  - reflexivity.
  - fold (governmentEnv clk http httpHistory reachable). rewrite Hstale. reflexivity.
Qed.

(** With an API adapter whose promise rejects, as the mocked adapter of the
    unit tests does, the same call serves the stale entry. *)
Lemma cached_fetch_adapter_rejects
    (env : CachedMarketDataAdapter.Env) (a : CachedMarketDataAdapter.t)
    (location : string) (date : Date) (x : MandiPrice.t) (xs : list MandiPrice.t)
    (message : string) :
  CachedMarketDataAdapter.isInitialized a = true ->
  CachedMarketDataAdapter.api_fetchMandiPrices
    (CachedMarketDataAdapter.apiAdapter env) location date = Err message ->
  MarketDataCache.getCachedMandiPrices (CachedMarketDataAdapter.clock env) location date
    (CachedMarketDataAdapter.cache a) = Some (x :: xs) ->
  filter (CachedMarketDataAdapter.validateDataFreshness env) (x :: xs) = [] ->
  CachedMarketDataAdapter.fetchMandiPrices env location date a = (x :: xs, a).
Proof.
  intros Hinit Hrej Hcached Hstale.
  unfold CachedMarketDataAdapter.fetchMandiPrices. rewrite Hinit. cbn [negb].
  rewrite Hcached. cbn [CachedMarketDataAdapter.nonEmpty].
  rewrite Hstale, Hrej. reflexivity.
Qed.

(** C1 (failing input): the cache holds a non-empty entry for Delhi and
    today's date whose only record is 25 hours old, and every HTTP attempt of
    the source fails; [fetchMandiPrices] of the cached adapter returns the
    empty list, not the cached entry. *)
Theorem stale_entry_not_served_when_source_down :
  let env := governmentEnv Sample.noon Sample.sourceDown Sample.sourceDown true in
  MarketDataCache.getCachedMandiPrices Sample.noon "Delhi" (now Sample.noon)
    (CachedMarketDataAdapter.cache Sample.staleAdapter) = Some [Sample.staleOnion]
  /\ fst (CachedMarketDataAdapter.fetchMandiPrices env "Delhi" (now Sample.noon)
            Sample.staleAdapter) = [].
Proof.
  split.
  - vm_compute. reflexivity.
  - vm_compute. reflexivity.
Qed.

(** ** Slices and sums *)

Lemma slice_first {A} (xs : list A) (n : nat) :
  slice xs 0 (Some (Z.of_nat n)) = firstn n xs.
Proof.
  unfold slice, relIndex. cbv zeta. simpl (0 <? 0).
  replace (Z.of_nat n <? 0) with false by (symmetry; apply Z.ltb_ge; lia).
  cbv iota. rewrite (Z.min_l 0) by lia. simpl (Z.to_nat 0). rewrite skipn_O.
  rewrite Z.sub_0_r.
  destruct (Nat.le_gt_cases n (List.length xs)) as [Hle|Hgt].
  - rewrite Z.min_l by lia. rewrite Nat2Z.id. reflexivity.
  - rewrite Z.min_r by lia. rewrite Nat2Z.id.
    rewrite !firstn_all2 by lia. reflexivity.
Qed.


Lemma slice_last {A} (xs : list A) (n : nat) :
  (0 < n)%nat ->
  slice xs (- Z.of_nat n) None = skipn (List.length xs - n) xs.
Proof.
  intros Hn. unfold slice, relIndex. cbv zeta.
  replace (- Z.of_nat n <? 0) with true by (symmetry; apply Z.ltb_lt; lia).
  cbv iota.
  replace (Z.to_nat (Z.max (Z.of_nat (List.length xs) + - Z.of_nat n) 0))
    with (List.length xs - n)%nat by lia.
  apply firstn_all2. rewrite length_skipn. lia.
Qed.

Lemma fold_left_price {A} (price : A -> number) (xs : list A) (acc : number) :
  fold_left (fun a p => (a + price p)%js) xs acc = fold_left add (map price xs) acc.
Proof.
  revert acc. induction xs as [|x xs IH]; intros acc; simpl; [reflexivity|].
  apply IH.
Qed.

Lemma average_is_mean {A} (price : A -> number) (xs : list A) :
  (fold_left (fun a p => a + price p) xs n0 / PriceDiscoveryService.length_ xs)%js
  = mean (map price xs).
Proof.
  unfold mean, PriceDiscoveryService.length_.
  rewrite fold_left_price, length_map. reflexivity.
Qed.



Lemma calculateTrend_change (points : list PricePoint.t) :
  (2 <= List.length points)%nat ->
  PriceDiscoveryService.calculateTrend points
  = if (relativeChange points >? dec 5 100)%js then rising
    else if (relativeChange points <? dec (-5) 100)%js then falling
    else stable.
Proof.
  intros Hlen. unfold PriceDiscoveryService.calculateTrend.
  replace (List.length points <? 2)%nat with false
    by (symmetry; apply Nat.ltb_ge; exact Hlen).
  change (-7) with (- Z.of_nat 7). rewrite slice_last by lia.
  change 7 with (Z.of_nat 7). rewrite slice_first.
  rewrite !average_is_mean.
  unfold relativeChange, lastN, firstN.
  rewrite skipn_map, firstn_map, length_map. reflexivity.
Qed.

(** ** Extrema *)


Lemma le_trans (a b c : number) :
  (a <=? b)%js = true -> (b <=? c)%js = true -> (a <=? c)%js = true.
Proof.
  destruct a, b, c; simpl; try reflexivity; try discriminate.
  rewrite !Qle_bool_iff. apply Qle_trans.
Qed.



Lemma Math_min_NaN_l (b : number) : Math_min NaN b = NaN.
Proof. reflexivity. Qed.

Lemma Math_max_NaN_l (b : number) : Math_max NaN b = NaN.
Proof. reflexivity. Qed.













(** ** Statistical estimation *)





(** In [estimatePrice] this estimate is the answer when the history is not
    empty and the AI service fails. *)
Lemma estimatePrice_statistical (Math_sqrt : number -> number)
    (clk : Clock) (adapter : MarketDataAdapter) (ai : AIService)
    (product : ProductQuery.t) (x : HistoricalPrice.t) (xs : list HistoricalPrice.t) :
  isValid (validateProductQuery product) = true ->
  getHistoricalData adapter (ProductQuery.name product)
    (ProductQuery.location product) 30 = Ok (x :: xs) ->
  (forall points context, exists m, estimatePriceWithAI ai product points context = Err m) ->
  PriceDiscoveryService.estimatePrice Math_sqrt clk adapter ai product
  = Ok (PriceDiscoveryService.estimateFromHistoricalData clk product (x :: xs)).
Proof.
  intros Hvalid Hhist Hai.
  unfold PriceDiscoveryService.estimatePrice. rewrite Hvalid. cbn [negb].
  rewrite Hhist. cbn [bind tryCatch].
  destruct (Hai (map (PriceDiscoveryService.toPricePoint "historical") (x :: xs))
              (PriceDiscoveryService.buildMarketContext Math_sqrt clk product (x :: xs)))
    as [m ->].
  reflexivity.
Qed.

(** ** Validation and formatting *)

Lemma mkValidation_valid (errs : list string) :
  isValid (mkValidation errs) = true <-> errs = [].
Proof.
  unfold mkValidation; simpl. destruct errs; simpl; split; congruence.
Qed.

Lemma pushIf_nil (c : bool) (msg : string) : pushIf c msg = [] <-> c = false.
Proof.
  destruct c; simpl; split; congruence.
Qed.

Lemma pushIf_app_nil (c : bool) (msg : string) (rest : list string) :
  pushIf c msg ++ rest = [] <-> c = false /\ rest = [].
Proof.
  destruct c; simpl; split; intros H; try discriminate; try tauto.
  destruct H; discriminate.
Qed.

Lemma validatePriceData_valid (clk : Clock) (p : PriceInfo.t) :
  isValid (validatePriceData clk p) = true <-> accepted clk p.
Proof.
  unfold validatePriceData. rewrite mkValidation_valid.
  rewrite !pushIf_app_nil, pushIf_nil, negb_false_iff.
  split.
  - intros (H1 & H2 & H3 & H4 & H5 & H6 & H7 & H8 & H9 & H10 & H11).
    constructor; assumption.
  - intros []. repeat split; assumption.
Qed.

Lemma round2_Fin (q : Q) : finite (round2 (Fin q)).
Proof.
  unfold round2, finite. simpl. eexists. reflexivity.
Qed.

Lemma round2_PInf : round2 PInf = PInf.
Proof. reflexivity. Qed.

Lemma formatPrice_Ok (x y : number) :
  formatPrice x = Ok y -> finite y \/ y = PInf.
Proof.
  unfold formatPrice. destruct x as [q| | |]; simpl.
  - destruct (Qltb q (inject_Z 0)); [discriminate|].
    intros H; inversion H. left. apply (round2_Fin q).
  - intros H; inversion H. right. reflexivity.
  - discriminate.
  - discriminate.
Qed.

Lemma formatConfidence_Ok (x y : number) :
  formatConfidence x = Ok y -> finite y.
Proof.
  unfold formatConfidence. destruct x as [q| | |]; simpl; try discriminate.
  destruct (Qltb q (inject_Z 0) || Qltb (inject_Z 1) q); [discriminate|].
  intros H; inversion H. apply (round2_Fin q).
Qed.

Lemma below_ceiling_finite (y : number) :
  finite y \/ y = PInf -> (y >? maxReasonablePrice)%js = false -> finite y.
Proof.
  intros [H | ->]; [auto|]. discriminate.
Qed.

Lemma not_lt_le (a b : number) :
  finite a -> finite b -> (a <? b)%js = false -> (b <=? a)%js = true.
Proof.
  intros [x ->] [y ->]. simpl. unfold Qltb. rewrite negb_false_iff. auto.
Qed.

Lemma formatPriceInfo_Ok (raw p : PriceInfo.t) :
  formatPriceInfo raw = Ok p ->
  (finite (PriceInfo.current p) \/ PriceInfo.current p = PInf)
  /\ (finite (PriceInfo.minimum p) \/ PriceInfo.minimum p = PInf)
  /\ (finite (PriceInfo.maximum p) \/ PriceInfo.maximum p = PInf)
  /\ (finite (PriceInfo.average p) \/ PriceInfo.average p = PInf)
  /\ finite (PriceInfo.confidence p).
Proof.
  unfold formatPriceInfo, bind.
  destruct (formatPrice (PriceInfo.current raw)) eqn:E1; [|discriminate].
  destruct (formatPrice (PriceInfo.minimum raw)) eqn:E2; [|discriminate].
  destruct (formatPrice (PriceInfo.maximum raw)) eqn:E3; [|discriminate].
  destruct (formatPrice (PriceInfo.average raw)) eqn:E4; [|discriminate].
  destruct (formatConfidence (PriceInfo.confidence raw)) eqn:E5; [|discriminate].
  intros H; inversion H; subst; simpl.
  repeat split; eauto using formatPrice_Ok, formatConfidence_Ok.
Qed.

(** A formatted and accepted [PriceInfo] is well formed. *)
Lemma formattedAndValidated_wellFormed (clk : Clock) (p : PriceInfo.t) :
  formattedAndValidated clk p -> wellFormed p.
Proof.
  intros (raw & Hfmt & Hval).
  apply validatePriceData_valid in Hval. destruct Hval.
  apply formatPriceInfo_Ok in Hfmt as (Fc & Fmin & Fmax & Fa & Fconf).
  repeat (match goal with H : (_ || _) = false |- _ =>
            apply orb_false_iff in H; destruct H end).
  pose proof (below_ceiling_finite _ Fc ltac:(assumption)) as Hc.
  pose proof (below_ceiling_finite _ Fmin ltac:(assumption)) as Hmin.
  pose proof (below_ceiling_finite _ Fmax ltac:(assumption)) as Hmax.
  pose proof (below_ceiling_finite _ Fa ltac:(assumption)) as Ha.
  assert (F0 : finite n0) by (eexists; reflexivity).
  assert (F1 : finite n1) by (eexists; reflexivity).
  unfold wellFormed, gt in *.
  repeat split; apply not_lt_le; assumption.
Qed.

(** ** The price discovery service *)

Section ServiceProperties.

Variable Math_sqrt : number -> number.

Import PriceDiscoveryService.

Lemma computeCurrentPrice_Ok clk adapter ai product (p : PriceInfo.t) :
  computeCurrentPrice Math_sqrt clk adapter ai product = Ok p ->
  formattedAndValidated clk p.
Proof.
  unfold computeCurrentPrice, bind.
  destruct (fetchMandiPrices adapter _ _) as [mandiPrices|]; [|discriminate].
  match goal with
  | |- match ?src with Ok _ => _ | Err _ => _ end = _ -> _ =>
      destruct src as [raw|]; [|discriminate]
  end.
  destruct (formatPriceInfo raw) as [formatted|] eqn:Hfmt; [|discriminate].
  destruct (isValid (validatePriceData clk formatted)) eqn:Hval; simpl;
    [|discriminate].
  intros H; inversion H; subst.
  exists raw. split; assumption.
Qed.

(** The two ways a call of [getCurrentPrice] returns a price. *)
Lemma getCurrentPrice_cases clk adapter ai product (s s' : t) (p : PriceInfo.t) :
  getCurrentPrice Math_sqrt clk adapter ai product s = (Ok p, s') ->
  (computeCurrentPrice Math_sqrt clk adapter ai product = Ok p
   /\ s' = {| priceCache :=
                <[generateCacheKey product := {| data := p; timestamp := now clk |}]>
                  (priceCache s) |})
  \/ (exists e, priceCache s !! generateCacheKey product = Some e
                /\ isCacheValid clk (timestamp e) = true
                /\ p = data e /\ s' = s).
Proof.
  unfold getCurrentPrice.
  destruct (negb (isValid (validateProductQuery product))); [discriminate|].
  destruct (priceCache s !! generateCacheKey product) as [cached|] eqn:Hlook.
  - destruct (isCacheValid clk (timestamp cached)) eqn:Hv.
    + intros H; inversion H; subst. right. exists cached. auto.
    + destruct (computeCurrentPrice Math_sqrt clk adapter ai product) as [pi|m];
        intros H; inversion H; subst. left. auto.
  - destruct (computeCurrentPrice Math_sqrt clk adapter ai product) as [pi|m];
      intros H; inversion H; subst. left. auto.
Qed.

Lemma getCurrentPrice_Err_state clk adapter ai product (s s' : t) (m : string) :
  getCurrentPrice Math_sqrt clk adapter ai product s = (Err m, s') -> s' = s.
Proof.
  unfold getCurrentPrice.
  destruct (negb (isValid (validateProductQuery product)));
    [intros H; inversion H; reflexivity|].
  destruct (match priceCache s !! generateCacheKey product with
            | Some cached => _ | None => None end);
    [discriminate|].
  destruct (computeCurrentPrice Math_sqrt clk adapter ai product) as [pi|m'];
    intros H; inversion H; reflexivity.
Qed.

Lemma reachable_cacheValidated (s : t) : reachable Math_sqrt s -> cacheValidated s.
Proof.
  induction 1 as [|clk adapter ai product s Hs IH|s Hs IH].
  - intros k e H. cbn in H. rewrite lookup_empty in H. discriminate.
  - destruct (getCurrentPrice Math_sqrt clk adapter ai product s) as [[p|m] s'] eqn:E;
      cbn [snd].
    + apply getCurrentPrice_cases in E as [[Hc ->]|(e & _ & _ & _ & ->)]; [|exact IH].
      intros k e. cbn [priceCache]. rewrite lookup_insert.
      destruct (decide (generateCacheKey product = k)) as [_|_].
      * intros H; inversion H; subst. cbn [data timestamp].
        exists clk. split; [|reflexivity].
        apply (computeCurrentPrice_Ok _ _ _ _ _ Hc).
      * apply IH.
    + apply getCurrentPrice_Err_state in E. subst. exact IH.
  - intros k e H. cbn in H. rewrite lookup_empty in H. discriminate.
Qed.

(** C2: from any reachable state of the service, a [PriceInfo] that
    [getCurrentPrice] returns (an invalid query, a failed validation or a
    failed source raise instead) satisfies minimum <= current <= maximum,
    minimum <= average <= maximum and 0 <= confidence <= 1. *)
Theorem getCurrentPrice_wellFormed
    (clk : Clock) (adapter : MarketDataAdapter) (ai : AIService)
    (product : ProductQuery.t) (s s' : t) (p : PriceInfo.t) :
  reachable Math_sqrt s ->
  getCurrentPrice Math_sqrt clk adapter ai product s = (Ok p, s') ->
  wellFormed p.
Proof.
  intros Hreach Hcall.
  apply getCurrentPrice_cases in Hcall as [[Hc _]|(e & Hlook & _ & -> & _)].
  - apply (formattedAndValidated_wellFormed clk).
    apply (computeCurrentPrice_Ok _ _ _ _ _ Hc).
  - destruct (reachable_cacheValidated s Hreach _ _ Hlook) as (clk0 & Hfv & _).
    apply (formattedAndValidated_wellFormed clk0 _ Hfv).
Qed.



(** C9: after a call of [getCurrentPrice] that returned [p], the cache holds
    an entry with data [p] under the key of the query, and a later call with
    the same name, category and location, made while that entry is younger
    than [CACHE_TTL_MS], returns the same [p], [lastUpdated] included, without
    touching the state. *)
Theorem getCurrentPrice_idempotent
    (clk1 clk2 : Clock) (adapter1 adapter2 : MarketDataAdapter) (ai1 ai2 : AIService)
    (q1 q2 : ProductQuery.t) (s s' : t) (p : PriceInfo.t) :
  getCurrentPrice Math_sqrt clk1 adapter1 ai1 q1 s = (Ok p, s') ->
  isValid (validateProductQuery q2) = true ->
  sameKey q1 q2 ->
  exists e,
    priceCache s' !! generateCacheKey q1 = Some e
    /\ data e = p
    /\ (now clk2 - timestamp e < 5 * 60 * 1000 ->
        getCurrentPrice Math_sqrt clk2 adapter2 ai2 q2 s' = (Ok p, s')).
Proof.
  intros Hfirst Hvalid2 (Hn & Hc & Hl).
  assert (Hkey : generateCacheKey q2 = generateCacheKey q1).
  { unfold generateCacheKey. rewrite Hn, Hc, Hl. reflexivity. }
  assert (Hsecond : forall e, priceCache s' !! generateCacheKey q1 = Some e ->
            now clk2 - timestamp e < 5 * 60 * 1000 ->
            getCurrentPrice Math_sqrt clk2 adapter2 ai2 q2 s' = (Ok (data e), s')).
  { intros e He Hfresh. unfold getCurrentPrice. rewrite Hvalid2. cbn [negb].
    rewrite Hkey, He. unfold isCacheValid, CACHE_TTL_MS.
    replace (now clk2 - timestamp e <? 5 * 60 * 1000) with true; [reflexivity|].
    symmetry. apply Z.ltb_lt. exact Hfresh. }
  unfold getCurrentPrice in Hfirst.
  destruct (negb (isValid (validateProductQuery q1))); [discriminate|].
  destruct (priceCache s !! generateCacheKey q1) as [cached|] eqn:Hlook.
  - destruct (isCacheValid clk1 (timestamp cached)) eqn:Hv.
    + inversion Hfirst; subst. exists cached. repeat split; auto.
    + destruct (computeCurrentPrice Math_sqrt clk1 adapter1 ai1 q1) as [pi|m];
        inversion Hfirst; subst.
      eexists. split; [apply lookup_insert_eq|]. split; [reflexivity|].
      intros Hfresh. apply (Hsecond _ (lookup_insert_eq _ _ _) Hfresh).
  - destruct (computeCurrentPrice Math_sqrt clk1 adapter1 ai1 q1) as [pi|m];
      inversion Hfirst; subst.
    eexists. split; [apply lookup_insert_eq|]. split; [reflexivity|].
    intros Hfresh. apply (Hsecond _ (lookup_insert_eq _ _ _) Hfresh).
Qed.


End ServiceProperties.

(** ** Instances *)

Lemma getCurrentPrice_wellFormed_witness :
  exists p s',
    PriceDiscoveryService.getCurrentPrice Sample.sqrtApprox Sample.noon
      Sample.tomatoSource Sample.aiDown Sample.tomato
      PriceDiscoveryService.create = (Ok p, s')
    /\ wellFormed p.
Proof.
  eexists. eexists.
  assert (E : PriceDiscoveryService.getCurrentPrice Sample.sqrtApprox Sample.noon
      Sample.tomatoSource Sample.aiDown Sample.tomato
      PriceDiscoveryService.create
    = (Ok _, _)) by (vm_compute; reflexivity).
  split; [exact E|].
  exact (getCurrentPrice_wellFormed Sample.sqrtApprox _ _ _ _ _ _ _
           (reach_create _) E).
Defined.




Lemma getCurrentPrice_idempotent_witness :
  exists p s',
    PriceDiscoveryService.getCurrentPrice Sample.sqrtApprox Sample.noon
      Sample.tomatoSource Sample.aiDown Sample.tomato
      PriceDiscoveryService.create = (Ok p, s')
    /\ PriceDiscoveryService.getCurrentPrice Sample.sqrtApprox Sample.noonPlusOne
         (Sample.historySource []) Sample.aiDown Sample.tomato s' = (Ok p, s').
Proof.
  eexists. eexists.
  assert (E : PriceDiscoveryService.getCurrentPrice Sample.sqrtApprox Sample.noon
      Sample.tomatoSource Sample.aiDown Sample.tomato
      PriceDiscoveryService.create
    = (Ok _, _)) by (vm_compute; reflexivity).
  split; [exact E|].
  destruct (getCurrentPrice_idempotent Sample.sqrtApprox Sample.noon Sample.noonPlusOne
              Sample.tomatoSource (Sample.historySource []) Sample.aiDown Sample.aiDown
              Sample.tomato Sample.tomato _ _ _ E eq_refl
              (conj eq_refl (conj eq_refl eq_refl)))
    as (e & Hlook & _ & Hsecond).
  apply Hsecond.
  vm_compute in Hlook. inversion Hlook. vm_compute. reflexivity.
Defined.




(** ** Examples *)

(** Section 8 of the specification: a verified tomato record of 25 gives an
    official price of 25 with confidence 0.95. *)
Example ex_official_tomato :
  fst (PriceDiscoveryService.getCurrentPrice Sample.sqrtApprox Sample.noon
         Sample.tomatoSource Sample.aiDown Sample.tomato PriceDiscoveryService.create)
  = Ok {| PriceInfo.current := dec 2500 100;
          PriceInfo.minimum := dec 2375 100;
          PriceInfo.maximum := dec 2625 100;
          PriceInfo.average := dec 2500 100;
          PriceInfo.confidence := dec 95 100;
          PriceInfo.source := "official";
          PriceInfo.lastUpdated := now Sample.noon |}.
Proof. vm_compute. reflexivity. Qed.

(** The estimate for the history [1, 100] does not get through
    [getCurrentPrice]. *)
Example ex_estimate_rejected :
  fst (PriceDiscoveryService.getCurrentPrice Sample.sqrtApprox Sample.noon
         (Sample.historySource [ofZ 1; ofZ 100]) Sample.aiDown Sample.tomato
         PriceDiscoveryService.create)
  = Err "Failed to get price for tomato: Generated price data failed validation".
Proof. vm_compute. reflexivity. Qed.

(** A cache hit is returned as stored: a price accepted at noon is served
    a minute later although [validatePriceData] would by then reject it as
    older than 24 hours. *)
Example ex_cache_hit_not_revalidated :
  let first := PriceDiscoveryService.getCurrentPrice Sample.sqrtApprox Sample.noon
                 Sample.agingSource Sample.aiDown Sample.tomato
                 PriceDiscoveryService.create in
  let second := PriceDiscoveryService.getCurrentPrice Sample.sqrtApprox
                  Sample.noonPlusOne Sample.agingSource Sample.aiDown Sample.tomato
                  (snd first) in
  exists p, fst first = Ok p /\ fst second = Ok p
            /\ isValid (validatePriceData Sample.noon p) = true
            /\ isValid (validatePriceData Sample.noonPlusOne p) = false.
Proof.
  eexists. split; [vm_compute; reflexivity|].
  repeat split; vm_compute; reflexivity.
Qed.

(** At 18:30 the local hour is 18 and the six-hour threshold applies: a
    verified record that is seven hours old is not fresh. *)
Example ex_evening_threshold :
  CachedMarketDataAdapter.validateDataFreshness
    (governmentEnv Sample.evening Sample.sourceDown Sample.sourceDown true)
    (Sample.onion (now Sample.evening - hoursMs 7)) = false.
Proof. vm_compute. reflexivity. Qed.

(** The unit test "should return stale cache as fallback when API fails":
    with an API adapter that rejects, the stale entry is served. *)
Example ex_rejecting_adapter_serves_stale :
  fst (CachedMarketDataAdapter.fetchMandiPrices
         {| CachedMarketDataAdapter.clock := Sample.noon;
            CachedMarketDataAdapter.apiAdapter :=
              {| CachedMarketDataAdapter.api_fetchMandiPrices :=
                   fun _ _ => Err "API Error";
                 CachedMarketDataAdapter.api_getHistoricalData :=
                   fun _ _ _ => Err "API Error";
                 CachedMarketDataAdapter.api_validateDataFreshness :=
                   fun _ => false |};
            CachedMarketDataAdapter.redisReachable := true |}
         "Delhi" (now Sample.noon) Sample.staleAdapter)
  = [Sample.staleOnion].
Proof. vm_compute. reflexivity. Qed.

Example ex_trim : Str.trim "  Delhi  " = "Delhi"%string.
Proof. reflexivity. Qed.

Example ex_iso : IsoDate.ofDate 1705276800000 = "2024-01-15"%string.
Proof. vm_compute. reflexivity. Qed.
Example ex_iso2 : IsoDate.ofDate 951782400000 = "2000-02-29"%string.
Proof. vm_compute. reflexivity. Qed.
Example ex_iso3 : IsoDate.ofDate (-1) = "1969-12-31"%string.
Proof. vm_compute. reflexivity. Qed.
Example ex_key : MarketDataCache.generateHistoricalDataKey "Red  Onion" "New Delhi" 30
  = "mandi:historical:red-onion:new-delhi:30"%string.
Proof. vm_compute. reflexivity. Qed.

(** * Further properties *)

(** ** Rounding to two decimals *)




Lemma cents_mono (q r : Q) : (q <= r)%Q -> (cents q <= cents r)%Z.
Proof.
  intros H. unfold cents. apply Qfloor_resp_le.
  change (inject_Z 100) with 100%Q. lra.
Qed.


Lemma cents_nonneg (q : Q) : (0 <= q)%Q -> (0 <= cents q)%Z.
Proof.
  intros H. change 0%Z with (cents 0).
  apply cents_mono. exact H.
Qed.

Lemma cents_le_100 (q : Q) : (q <= 1)%Q -> (cents q <= 100)%Z.
Proof.
  intros H. change 100%Z with (cents 1).
  apply cents_mono. exact H.
Qed.

Lemma hundredths_linear (k : Z) : (hundredths k == inject_Z k * (1 # 100))%Q.
Proof. unfold hundredths. field. Qed.

Lemma hundredths_nonneg (k : Z) : (0 <= k)%Z -> (0 <= hundredths k)%Q.
Proof.
  intros H. rewrite hundredths_linear. rewrite Zle_Qle in H.
  change (inject_Z 0) with 0%Q in H. lra.
Qed.

Lemma hundredths_le_1 (k : Z) : (k <= 100)%Z -> (hundredths k <= 1)%Q.
Proof.
  intros H. rewrite hundredths_linear. rewrite Zle_Qle in H.
  change (inject_Z 100) with 100%Q in H. lra.
Qed.

Lemma hundredths_le (k k' : Z) : (k <= k')%Z <-> (hundredths k <= hundredths k')%Q.
Proof.
  unfold hundredths. rewrite Zle_Qle.
  change (inject_Z 100) with 100%Q.
  split; intros H.
  - apply Qmult_le_compat_r; [exact H|]. discriminate.
  - assert (E : forall z, (inject_Z z == inject_Z z / 100 * 100)%Q) by (intros; field).
    rewrite (E k), (E k'). apply Qmult_le_compat_r; [exact H|]. discriminate.
Qed.


Lemma formatPrice_Fin (q : Q) :
  (0 <= q)%Q -> formatPrice (Fin q) = Ok (Fin (hundredths (cents q))).
Proof.
  intros H. unfold formatPrice. simpl isNaN. cbv iota.
  replace (Fin q <? n0)%js with false; [reflexivity|].
  symmetry. simpl. apply Qltb_ge. exact H.
Qed.

Lemma formatPrice_cases (x y : number) :
  formatPrice x = Ok y ->
  (x = PInf /\ y = PInf)
  \/ (exists q, x = Fin q /\ (0 <= q)%Q /\ y = Fin (hundredths (cents q))).
Proof.
  destruct x as [q| | |]; unfold formatPrice; simpl.
  - destruct (Qltb q (inject_Z 0)) eqn:E; [discriminate|].
    intros H; inversion H. right. exists q. repeat split.
    apply Qltb_ge in E. exact E.
  - intros H; inversion H. left. auto.
  - discriminate.
  - discriminate.
Qed.

Lemma formatConfidence_cases (x y : number) :
  formatConfidence x = Ok y ->
  exists q, x = Fin q /\ (0 <= q)%Q /\ (q <= 1)%Q /\ y = Fin (hundredths (cents q)).
Proof.
  destruct x as [q| | |]; unfold formatConfidence; simpl; try discriminate.
  destruct (Qltb q (inject_Z 0)) eqn:E0; [discriminate|].
  destruct (Qltb (inject_Z 1) q) eqn:E1; [discriminate|]. simpl.
  intros H; inversion H. exists q. repeat split.
  - apply Qltb_ge in E0. exact E0.
  - apply Qltb_ge in E1. exact E1.
Qed.

Lemma formatPrice_mono (a b a' b' : number) :
  formatPrice a = Ok a' -> formatPrice b = Ok b' ->
  (a <=? b)%js = true -> (a' <=? b')%js = true.
Proof.
  intros Ha Hb.
  apply formatPrice_cases in Ha as [[-> ->]|(q & -> & Hq & ->)];
    apply formatPrice_cases in Hb as [[-> ->]|(r & -> & Hr & ->)];
    simpl; try reflexivity; try discriminate.
  rewrite !Qle_bool_iff. intros H.
  apply (proj1 (hundredths_le _ _)). apply cents_mono. exact H.
Qed.



Lemma formatPrice_total (x : number) :
  (n0 <=? x)%js = true -> exists y, formatPrice x = Ok y.
Proof.
  destruct x as [q| | |]; simpl; try discriminate.
  - rewrite Qle_bool_iff. intros H. eexists. apply formatPrice_Fin. exact H.
  - intros _. eexists. reflexivity.
Qed.

Lemma formatConfidence_range (x y : number) :
  formatConfidence x = Ok y -> (n0 <=? y)%js = true /\ (y <=? n1)%js = true.
Proof.
  intros H. apply formatConfidence_cases in H as (q & -> & H0 & H1 & ->).
  simpl. rewrite !Qle_bool_iff. split.
  - apply hundredths_nonneg. apply cents_nonneg. exact H0.
  - apply hundredths_le_1. apply cents_le_100. exact H1.
Qed.

Lemma formatConfidence_total (x : number) :
  (n0 <=? x)%js = true -> (x <=? n1)%js = true ->
  exists y, formatConfidence x = Ok y.
Proof.
  destruct x as [q| | |]; simpl; try discriminate.
  rewrite !Qle_bool_iff. intros H0 H1.
  unfold formatConfidence. simpl.
  replace (Qltb q (inject_Z 0)) with false by (symmetry; apply Qltb_ge; exact H0).
  replace (Qltb (inject_Z 1) q) with false by (symmetry; apply Qltb_ge; exact H1).
  simpl. eexists. reflexivity.
Qed.





(** X3: [formatPriceInfo] accepts every [PriceInfo] whose fields are ordered
    (minimum <= current, average <= maximum, confidence within 0..1) and
    whose minimum is not negative, and the rounded result is ordered in the
    same way. *)
Theorem formatPriceInfo_preserves_order (raw : PriceInfo.t) :
  wellFormed raw ->
  (n0 <=? PriceInfo.minimum raw)%js = true ->
  exists p, formatPriceInfo raw = Ok p /\ wellFormed p.
Proof.
  intros (Hmc & Hcx & Hma & Hax & Hc0 & Hc1) Hmin.
  pose proof (le_trans _ _ _ Hmin Hmc) as Hcur.
  pose proof (le_trans _ _ _ Hmin Hma) as Havg.
  pose proof (le_trans _ _ _ Hcur Hcx) as Hmax.
  destruct (formatPrice_total _ Hcur) as [c Ec].
  destruct (formatPrice_total _ Hmin) as [mn Emn].
  destruct (formatPrice_total _ Hmax) as [mx Emx].
  destruct (formatPrice_total _ Havg) as [av Eav].
  destruct (formatConfidence_total _ Hc0 Hc1) as [cf Ecf].
  eexists. split.
  - unfold formatPriceInfo, bind. rewrite Ec, Emn, Emx, Eav, Ecf. reflexivity.
  - unfold wellFormed. cbn [PriceInfo.current PriceInfo.minimum PriceInfo.maximum
      PriceInfo.average PriceInfo.confidence].
    destruct (formatConfidence_range _ _ Ecf) as [? ?].
    repeat split; eauto using formatPrice_mono.
Qed.

Lemma formatPriceInfo_preserves_order_witness :
  exists p,
    formatPriceInfo
      (PriceDiscoveryService.convertMandiPriceToPriceInfo
         (Sample.onion (now Sample.noon)) "official") = Ok p
    /\ wellFormed p.
Proof.
  apply (formatPriceInfo_preserves_order
           (PriceDiscoveryService.convertMandiPriceToPriceInfo
              (Sample.onion (now Sample.noon)) "official")).
  - repeat split; vm_compute; reflexivity.
  - vm_compute. reflexivity.
Defined.

(** ** Validation *)

Lemma longer_false (s : string) (n : nat) :
  blank s = false -> (longer s n = false <-> (String.length s <= n)%nat).
Proof.
  unfold blank, longer. intros Hb. apply orb_false_iff in Hb as [Hlen _].
  rewrite Hlen. simpl. rewrite Nat.ltb_ge. reflexivity.
Qed.

Lemma quantity_checks (q : number) :
  ((q <=? n0)%js = false
   /\ truthy q && ((q >? ofZ 1000000)%js || (q <? dec 1 1000)%js) = false)
  <-> quantityOk q.
Proof.
  unfold quantityOk. destruct q as [r| | |]; simpl.
  - unfold Qeqb, Qltb.
    destruct (Qle_bool r (inject_Z 0)) eqn:E0;
      destruct (Qeq_bool r 0) eqn:Ez;
      destruct (Qle_bool r (inject_Z 1000000)) eqn:Ehi;
      destruct (Qle_bool (1 # 1000) r) eqn:Elo; simpl;
      try apply Qle_bool_iff in E0; try apply Qle_bool_iff in Ehi;
      try apply Qle_bool_iff in Elo; try apply Qeq_bool_iff in Ez;
      change (inject_Z 0) with 0%Q in *;
      change (inject_Z 1000000) with 1000000%Q in *;
      split;
      try (intros [? ?]; discriminate);
      try (intros [Hn|(r' & Hr & H1 & H2)]; [discriminate|];
           inversion Hr; subst r'; clear Hr);
      try lra;
      try (intros _; right; exists r; repeat split; auto).
    all: try (exfalso;
      repeat match goal with
      | H : Qle_bool _ _ = false |- _ =>
          apply not_true_iff_false in H; rewrite Qle_bool_iff in H
      | H : Qeq_bool _ _ = false |- _ => apply Qeq_bool_neq in H
      end;
      change (inject_Z 0) with 0%Q in *;
      change (inject_Z 1000000) with 1000000%Q in *; lra).
  - split; [intros [_ H]; discriminate|].
    intros [H|(r & H & _)]; discriminate.
  - split; [intros [H _]; discriminate|].
    intros [H|(r & H & _)]; discriminate.
  - split; auto.
Qed.

(** X4: [validateProductQuery] accepts a query exactly when name, category,
    location and unit are not blank and at most 100, 50, 100 and 20
    characters long, and the quantity lies within 0.001 .. 1,000,000 or is
    NaN, which none of its comparisons catches. *)
Theorem validateProductQuery_valid_iff (product : ProductQuery.t) :
  isValid (validateProductQuery product) = true
  <-> fieldOk (ProductQuery.name product) 100
      /\ fieldOk (ProductQuery.category product) 50
      /\ fieldOk (ProductQuery.location product) 100
      /\ fieldOk (ProductQuery.unit product) 20
      /\ quantityOk (ProductQuery.quantity product).
Proof.
  unfold validateProductQuery. cbv zeta. rewrite mkValidation_valid.
  rewrite !pushIf_app_nil, pushIf_nil.
  rewrite <- quantity_checks. unfold fieldOk.
  split.
  - intros (Hn & Hc & Hl & Hu & Hq & Hln & Hlc & Hll & Hlu & Hr).
    rewrite (longer_false _ _ Hn) in Hln. rewrite (longer_false _ _ Hc) in Hlc.
    rewrite (longer_false _ _ Hl) in Hll. rewrite (longer_false _ _ Hu) in Hlu.
    tauto.
  - intros ((Hn & Hln) & (Hc & Hlc) & (Hl & Hll) & (Hu & Hlu) & Hq & Hr).
    rewrite <- (longer_false _ _ Hn) in Hln. rewrite <- (longer_false _ _ Hc) in Hlc.
    rewrite <- (longer_false _ _ Hl) in Hll. rewrite <- (longer_false _ _ Hu) in Hlu.
    tauto.
Qed.

Lemma finite_lt (a b : Q) : (Fin a <? Fin b)%js = false <-> (b <= a)%Q.
Proof. simpl. apply Qltb_ge. Qed.


(** X5: on a [PriceInfo] whose numbers are finite, [validatePriceData]
    accepts exactly when 0 <= minimum <= current <= maximum <= 100000,
    minimum <= average <= maximum, 0 <= confidence <= 1, the source is
    "official" or "estimated", and [lastUpdated] is not more than 24 hours
    before now. *)
Theorem validatePriceData_finite_iff (clk : Clock) (p : PriceInfo.t)
    (current minimum maximum average confidence : Q) :
  finiteInfo p current minimum maximum average confidence ->
  (isValid (validatePriceData clk p) = true
   <-> (0 <= minimum)%Q /\ (minimum <= current)%Q /\ (current <= maximum)%Q
       /\ (minimum <= average)%Q /\ (average <= maximum)%Q
       /\ (maximum <= 100000)%Q
       /\ (0 <= confidence)%Q /\ (confidence <= 1)%Q
       /\ knownSource (PriceInfo.source p) = true
       /\ now clk - 24 * 60 * 60 * 1000 <= PriceInfo.lastUpdated p).
Proof.
  intros (Hc & Hmn & Hmx & Ha & Hcf).
  rewrite validatePriceData_valid.
  split.
  - intros [A1 A2 A3 A4 A5 A6 A7 A8 A9 A10 A11].
    rewrite Hc, Hmn, Hmx, Ha, Hcf in *. unfold gt, maxReasonablePrice, n0, n1, ofZ in *.
    repeat match goal with H : (_ || _) = false |- _ =>
             apply orb_false_iff in H; destruct H end.
    repeat match goal with H : (Fin _ <? _)%js = false |- _ =>
             apply finite_lt in H end.
    change (inject_Z 0) with 0%Q in *. change (inject_Z 1) with 1%Q in *.
    change (inject_Z 100000) with 100000%Q in *.
    apply Z.ltb_ge in A11.
    repeat split; try assumption; try lra.
  - intros (H1 & H2 & H3 & H4 & H5 & H6 & H7 & H8 & H9 & H10).
    constructor; rewrite ?Hc, ?Hmn, ?Hmx, ?Ha, ?Hcf;
      unfold gt, maxReasonablePrice, n0, n1, ofZ;
      rewrite ?orb_false_iff; repeat split;
      try (apply finite_lt; change (inject_Z 0) with 0%Q;
           change (inject_Z 1) with 1%Q; change (inject_Z 100000) with 100000%Q; lra);
      try assumption.
    apply Z.ltb_ge. exact H10.
Qed.

Lemma validatePriceData_finite_iff_witness :
  let p := {| PriceInfo.current := dec 2500 100;
              PriceInfo.minimum := dec 2375 100;
              PriceInfo.maximum := dec 2625 100;
              PriceInfo.average := dec 2500 100;
              PriceInfo.confidence := dec 95 100;
              PriceInfo.source := "official";
              PriceInfo.lastUpdated := now Sample.noon |} in
  isValid (validatePriceData Sample.noon p) = true
  <-> (0 <= 2375 # 100)%Q /\ (2375 # 100 <= 2500 # 100)%Q
      /\ (2500 # 100 <= 2625 # 100)%Q
      /\ (2375 # 100 <= 2500 # 100)%Q /\ (2500 # 100 <= 2625 # 100)%Q
      /\ (2625 # 100 <= 100000)%Q
      /\ (0 <= 95 # 100)%Q /\ (95 # 100 <= 1)%Q
      /\ knownSource (PriceInfo.source p) = true
      /\ now Sample.noon - 24 * 60 * 60 * 1000 <= PriceInfo.lastUpdated p.
Proof.
  intros p.
  apply (validatePriceData_finite_iff Sample.noon p).
  repeat split; reflexivity.
Defined.

(** X6: [validatePriceData] does not catch NaN: a [PriceInfo] whose five
    numbers are all NaN is accepted exactly when its source tag is known and
    its date is not more than 24 hours old. *)
Theorem validatePriceData_accepts_NaN (clk : Clock) (source : string) (lastUpdated : Date) :
  isValid (validatePriceData clk
             {| PriceInfo.current := NaN;
                PriceInfo.minimum := NaN;
                PriceInfo.maximum := NaN;
                PriceInfo.average := NaN;
                PriceInfo.confidence := NaN;
                PriceInfo.source := source;
                PriceInfo.lastUpdated := lastUpdated |}) = true
  <-> knownSource source = true
      /\ now clk - 24 * 60 * 60 * 1000 <= lastUpdated.
Proof.
  rewrite validatePriceData_valid. split.
  - intros [_ _ _ _ _ A6 _ _ _ _ A11]. cbn in A6, A11.
    apply Z.ltb_ge in A11. auto.
  - intros [Hs Hd]. constructor; try reflexivity; cbn.
    + exact Hs.
    + apply Z.ltb_ge. exact Hd.
Qed.

(** On finite numbers [validatePriceRange] accepts exactly when
    min <= current <= max and max <= 3 x min. *)
Lemma validatePriceRange_finite_iff (min max current : Q) :
  isValid (validatePriceRange (Fin min) (Fin max) (Fin current)) = true
  <-> (min <= current)%Q /\ (current <= max)%Q /\ (max <= 3 * min)%Q.
Proof.
  unfold validatePriceRange. rewrite mkValidation_valid.
  rewrite !pushIf_app_nil, pushIf_nil. unfold gt, ofZ.
  cbn [mul]. rewrite !finite_lt.
  change (inject_Z 3) with 3%Q.
  split.
  - intros (H1 & H2 & H3 & H4). repeat split; lra.
  - intros (H1 & H2 & H3). repeat split; lra.
Qed.

(** X8: the price band [convertMandiPriceToPriceInfo] builds around a
    finite non-negative price (5% below and above) always passes
    [validatePriceRange]. *)
Theorem converted_range_passes (mandiPrice : MandiPrice.t) (source : string) (p : Q) :
  MandiPrice.price mandiPrice = Fin p ->
  (0 <= p)%Q ->
  let info := PriceDiscoveryService.convertMandiPriceToPriceInfo mandiPrice source in
  isValid (validatePriceRange (PriceInfo.minimum info) (PriceInfo.maximum info)
             (PriceInfo.current info)) = true.
Proof.
  intros Hp Hpos info. subst info.
  unfold PriceDiscoveryService.convertMandiPriceToPriceInfo.
  cbn [PriceInfo.minimum PriceInfo.maximum PriceInfo.current].
  rewrite Hp. unfold dec. cbn [mul].
  apply validatePriceRange_finite_iff. repeat split; lra.
Qed.

Lemma converted_range_passes_witness :
  let info := PriceDiscoveryService.convertMandiPriceToPriceInfo
                (Sample.onion (now Sample.noon)) "official" in
  isValid (validatePriceRange (PriceInfo.minimum info) (PriceInfo.maximum info)
             (PriceInfo.current info)) = true.
Proof.
  apply (converted_range_passes (Sample.onion (now Sample.noon)) "official" (51 # 2)).
  - reflexivity.
  - discriminate.
Defined.

(** ** The source client *)

Lemma makeRequestWithRetry_unfold {R} (http : GovernmentMarketDataAdapter.Http R) :
  GovernmentMarketDataAdapter.makeRequestWithRetry http
  = match http 1%nat with
    | GovernmentMarketDataAdapter.Response d => Ok d
    | GovernmentMarketDataAdapter.ClientError m => Err m
    | GovernmentMarketDataAdapter.OtherError _ =>
        match http 2%nat with
        | GovernmentMarketDataAdapter.Response d => Ok d
        | GovernmentMarketDataAdapter.ClientError m => Err m
        | GovernmentMarketDataAdapter.OtherError _ =>
            match http 3%nat with
            | GovernmentMarketDataAdapter.Response d => Ok d
            | GovernmentMarketDataAdapter.ClientError m => Err m
            | GovernmentMarketDataAdapter.OtherError m => Err m
            end
        end
    end.
Proof. reflexivity. Qed.

(** X9: [makeRequestWithRetry] returns a response exactly when one of the
    first three attempts answers and every attempt before it failed with a
    transport or server error; it raises the client error of the first 4xx
    attempt without trying again, and after three transport or server errors
    it raises the last one.  A fourth attempt is never made. *)
Theorem makeRequestWithRetry_outcome {R} (http : GovernmentMarketDataAdapter.Http R) :
  (forall data,
     GovernmentMarketDataAdapter.makeRequestWithRetry http = Ok data
     <-> exists k, (1 <= k <= 3)%nat
                   /\ http k = GovernmentMarketDataAdapter.Response data
                   /\ retriedBefore http k)
  /\ (forall m,
        GovernmentMarketDataAdapter.makeRequestWithRetry http = Err m
        <-> (exists k, (1 <= k <= 3)%nat
                       /\ http k = GovernmentMarketDataAdapter.ClientError m
                       /\ retriedBefore http k)
            \/ (http 3%nat = GovernmentMarketDataAdapter.OtherError m
                /\ retriedBefore http 3)).
Proof.
  rewrite makeRequestWithRetry_unfold. unfold retriedBefore.
  assert (Hk : forall k, (1 <= k <= 3)%nat -> k = 1%nat \/ k = 2%nat \/ k = 3%nat)
    by (intros; lia).
  assert (Hj2 : forall j, (1 <= j < 2)%nat -> j = 1%nat) by (intros; lia).
  assert (Hj3 : forall j, (1 <= j < 3)%nat -> j = 1%nat \/ j = 2%nat) by (intros; lia).
  split; intros x; split.
  - intros H.
    destruct (http 1%nat) as [d1|m1|m1] eqn:E1; try discriminate.
    { inversion H; subst. exists 1%nat. repeat split; auto. intros j Hj; lia. }
    destruct (http 2%nat) as [d2|m2|m2] eqn:E2; try discriminate.
    { inversion H; subst. exists 2%nat. repeat split; auto.
      intros j Hj. rewrite (Hj2 j Hj). eauto. }
    destruct (http 3%nat) as [d3|m3|m3] eqn:E3; try discriminate.
    inversion H; subst. exists 3%nat. repeat split; auto.
    intros j Hj. destruct (Hj3 j Hj) as [-> | ->]; eauto.
  - intros (k & Hr & Hresp & Hbefore).
    destruct (Hk k Hr) as [-> | [-> | ->]].
    + rewrite Hresp. reflexivity.
    + destruct (Hbefore 1%nat ltac:(lia)) as [m1 ->]. rewrite Hresp. reflexivity.
    + destruct (Hbefore 1%nat ltac:(lia)) as [m1 ->].
      destruct (Hbefore 2%nat ltac:(lia)) as [m2 ->]. rewrite Hresp. reflexivity.
  - intros H.
    destruct (http 1%nat) as [d1|m1|m1] eqn:E1; try discriminate.
    { inversion H; subst. left. exists 1%nat. repeat split; auto. intros j Hj; lia. }
    destruct (http 2%nat) as [d2|m2|m2] eqn:E2; try discriminate.
    { inversion H; subst. left. exists 2%nat. repeat split; auto.
      intros j Hj. rewrite (Hj2 j Hj). eauto. }
    destruct (http 3%nat) as [d3|m3|m3] eqn:E3; try discriminate.
    { inversion H; subst. left. exists 3%nat. repeat split; auto.
      intros j Hj. destruct (Hj3 j Hj) as [-> | ->]; eauto. }
    inversion H; subst. right. split; auto.
    intros j Hj. destruct (Hj3 j Hj) as [-> | ->]; eauto.
  - intros [(k & Hr & Hresp & Hbefore)|(H3 & Hbefore)].
    + destruct (Hk k Hr) as [-> | [-> | ->]].
      * rewrite Hresp. reflexivity.
      * destruct (Hbefore 1%nat ltac:(lia)) as [m1 ->]. rewrite Hresp. reflexivity.
      * destruct (Hbefore 1%nat ltac:(lia)) as [m1 ->].
        destruct (Hbefore 2%nat ltac:(lia)) as [m2 ->]. rewrite Hresp. reflexivity.
    + destruct (Hbefore 1%nat ltac:(lia)) as [m1 ->].
      destruct (Hbefore 2%nat ltac:(lia)) as [m2 ->]. rewrite H3. reflexivity.
Qed.

Lemma source_validateDataFreshness_true (clk : Clock) (data : MandiPrice.t) :
  GovernmentMarketDataAdapter.validateDataFreshness clk data = true ->
  age clk data < hoursMs 24
  /\ MandiPrice.verified data = true
  /\ positive (MandiPrice.price data).
Proof.
  unfold GovernmentMarketDataAdapter.validateDataFreshness,
    GovernmentMarketDataAdapter.maxAgeMs, age, hoursMs.
  rewrite !andb_true_iff, Z.ltb_lt, gt_zero_positive.
  intros [[H1 H2] H3]. repeat split; auto.
Qed.

Lemma In_filter {A} (f : A -> bool) (l : list A) (x : A) :
  In x (filter (fun y => f y) l) <-> In x l /\ f x = true.
Proof.
  rewrite <- !list_elem_of_In, list_elem_of_filter, Is_true_true. tauto.
Qed.

(** X10: every record [fetchMandiPrices] of the source client returns is
    verified, has a price above zero, and carries the requested location and
    the source tag "government_api"; so it passes [validateDataFreshness]
    exactly when its date is less than 24 hours old. *)
Theorem fetched_records_are_verified (clk : Clock)
    (http : GovernmentMarketDataAdapter.Http GovernmentMarketDataAdapter.PriceRecord)
    (location : string) (date : Date) (p : MandiPrice.t) :
  In p (GovernmentMarketDataAdapter.fetchMandiPrices clk http location date) ->
  MandiPrice.verified p = true
  /\ positive (MandiPrice.price p)
  /\ MandiPrice.location p = location
  /\ MandiPrice.source p = "government_api"%string
  /\ (GovernmentMarketDataAdapter.validateDataFreshness clk p = true
      <-> age clk p < hoursMs 24).
Proof.
  unfold GovernmentMarketDataAdapter.fetchMandiPrices,
    GovernmentMarketDataAdapter.parseMandiPricesResponse.
  destruct (GovernmentMarketDataAdapter.makeRequestWithRetry http) as [data|m];
    [|intros []].
  destruct (GovernmentMarketDataAdapter.recordsOf data) as [records|]; [|intros []].
  intros Hin. apply In_filter in Hin as [Hin Hpos].
  apply in_map_iff in Hin as (r & <- & _).
  cbn [MandiPrice.price MandiPrice.verified MandiPrice.location MandiPrice.source] in *.
  apply gt_zero_positive in Hpos.
  split; [reflexivity|]. split; [exact Hpos|]. split; [reflexivity|].
  split; [reflexivity|].
  split.
  - intros H. apply source_validateDataFreshness_true in H. tauto.
  - intros H. apply source_validateDataFreshness_basic; auto.
Qed.

Lemma fetched_records_are_verified_witness :
  exists p,
    In p (GovernmentMarketDataAdapter.fetchMandiPrices Sample.noon Sample.sourceFlaky
            "Delhi" (now Sample.noon))
    /\ MandiPrice.verified p = true
    /\ positive (MandiPrice.price p)
    /\ MandiPrice.location p = "Delhi"%string
    /\ MandiPrice.source p = "government_api"%string
    /\ (GovernmentMarketDataAdapter.validateDataFreshness Sample.noon p = true
        <-> age Sample.noon p < hoursMs 24).
Proof.
  eexists.
  assert (Hin : In _ (GovernmentMarketDataAdapter.fetchMandiPrices Sample.noon
                        Sample.sourceFlaky "Delhi" (now Sample.noon)))
    by (vm_compute; left; reflexivity).
  split; [exact Hin|].
  exact (fetched_records_are_verified _ _ _ _ _ Hin).
Defined.

Lemma filterBoolean_nonempty (xs : list (option string)) (s : string) :
  In s (GovernmentMarketDataAdapter.filterBoolean xs) -> s <> EmptyString.
Proof.
  induction xs as [|x xs IH]; simpl; [tauto|].
  destruct x as [t|]; [|exact IH].
  destruct t as [|c t]; simpl; [exact IH|].
  intros [<-|H]; [discriminate|auto].
Qed.

(** X11: [getSupportedLocations] of the source client never returns an empty
    name; when the request fails, or the response is not an array, it
    returns the ten default locations. *)
Theorem getSupportedLocations_names
    (http : GovernmentMarketDataAdapter.Http GovernmentMarketDataAdapter.LocationRecord) :
  let locations := GovernmentMarketDataAdapter.getSupportedLocations http in
  (forall s, In s locations -> s <> EmptyString)
  /\ (forall m, GovernmentMarketDataAdapter.makeRequestWithRetry http = Err m ->
        locations = GovernmentMarketDataAdapter.getDefaultLocations)
  /\ (GovernmentMarketDataAdapter.makeRequestWithRetry http
        = Ok GovernmentMarketDataAdapter.NotAnArray ->
      locations = GovernmentMarketDataAdapter.getDefaultLocations)
  /\ List.length GovernmentMarketDataAdapter.getDefaultLocations = 10%nat.
Proof.
  unfold GovernmentMarketDataAdapter.getSupportedLocations,
    GovernmentMarketDataAdapter.parseLocationsResponse.
  cbv zeta. repeat split.
  - intros s.
    destruct (GovernmentMarketDataAdapter.makeRequestWithRetry http) as [data|m].
    + destruct (GovernmentMarketDataAdapter.recordsOf data) as [records|].
      * apply filterBoolean_nonempty.
      * simpl. intros H.
        repeat (destruct H as [<-|H]; [discriminate|]). destruct H.
    + simpl. intros H.
      repeat (destruct H as [<-|H]; [discriminate|]). destruct H.
  - intros m ->. reflexivity.
  - intros ->. reflexivity.
Qed.

(** ** The cache store *)


Lemma get_setEx_ne clk clk' key key' ttl v (c : MarketDataCache.t) :
  key <> key' ->
  MarketDataCache.get clk' key' (MarketDataCache.setEx clk key ttl v c)
  = MarketDataCache.get clk' key' c.
Proof.
  intros Hne.
  unfold MarketDataCache.get, MarketDataCache.setEx, MarketDataCache.withClient.
  cbn [MarketDataCache.client]. rewrite lookup_insert_ne by exact Hne. reflexivity.
Qed.



Lemma price_key_not_history_key (location location' product : string)
    (date : Date) (days : Z) :
  MarketDataCache.generateMandiPricesKey location date
  <> MarketDataCache.generateHistoricalDataKey product location' days.
Proof.
  unfold MarketDataCache.generateMandiPricesKey,
    MarketDataCache.generateHistoricalDataKey.
  simpl. discriminate.
Qed.

(** X13: prices and historical series never overwrite each other: writing
    prices, for any location and date, leaves every read of a historical
    series as it was, and writing a historical series leaves every read of
    prices as it was. *)
Theorem cache_kinds_are_separate (clk clk' : Clock) (c : MarketDataCache.t)
    (product location location' : string) (date : Date) (days : Z)
    (prices : list MandiPrice.t) (data : list HistoricalPrice.t) :
  MarketDataCache.getCachedHistoricalData clk' product location' days
    (MarketDataCache.cacheMandiPrices clk location date prices c)
  = MarketDataCache.getCachedHistoricalData clk' product location' days c
  /\ MarketDataCache.getCachedMandiPrices clk' location date
       (MarketDataCache.cacheHistoricalData clk product location' days data c)
     = MarketDataCache.getCachedMandiPrices clk' location date c.
Proof.
  unfold MarketDataCache.getCachedMandiPrices, MarketDataCache.cacheMandiPrices,
    MarketDataCache.getCachedHistoricalData, MarketDataCache.cacheHistoricalData.
  destruct (MarketDataCache.isConnected c) eqn:Hc; cbn [negb];
    [|rewrite Hc; split; reflexivity].
  cbn [MarketDataCache.setEx MarketDataCache.withClient MarketDataCache.isConnected].
  rewrite Hc. cbn [negb].
  split.
  - rewrite (get_setEx_ne clk clk' _ _ _ _ c); [reflexivity|].
    apply price_key_not_history_key.
  - rewrite (get_setEx_ne clk clk' _ _ _ _ c); [reflexivity|].
    intros H. symmetry in H. revert H. apply price_key_not_history_key.
Qed.

(** X14: after [invalidateMandiPrices] on a connected cache the prices of
    that location and date are a miss at any time, and every other key of
    the store holds what it held. *)
Theorem invalidate_removes_entry (clk : Clock) (c : MarketDataCache.t)
    (location : string) (date : Date) :
  MarketDataCache.isConnected c = true ->
  let c' := MarketDataCache.invalidateMandiPrices location date c in
  MarketDataCache.getCachedMandiPrices clk location date c' = None
  /\ forall key, key <> MarketDataCache.generateMandiPricesKey location date ->
       MarketDataCache.client c' !! key = MarketDataCache.client c !! key.
Proof.
  intros Hc c'. subst c'.
  unfold MarketDataCache.invalidateMandiPrices, MarketDataCache.getCachedMandiPrices.
  rewrite Hc. cbn [negb MarketDataCache.del MarketDataCache.withClient
    MarketDataCache.isConnected MarketDataCache.client].
  rewrite Hc. cbn [negb]. split.
  - unfold MarketDataCache.get, MarketDataCache.del, MarketDataCache.withClient.
    cbn [MarketDataCache.client]. rewrite lookup_delete_eq. reflexivity.
  - intros key Hne. unfold MarketDataCache.del, MarketDataCache.withClient.
    cbn [MarketDataCache.client]. apply lookup_delete_ne. congruence.
Qed.

Lemma invalidate_removes_entry_witness :
  MarketDataCache.getCachedMandiPrices Sample.noon "Delhi" (now Sample.noon)
    (MarketDataCache.invalidateMandiPrices "Delhi" (now Sample.noon) Sample.staleStore)
  = None
  /\ forall key, key <> MarketDataCache.generateMandiPricesKey "Delhi" (now Sample.noon) ->
       MarketDataCache.client
         (MarketDataCache.invalidateMandiPrices "Delhi" (now Sample.noon) Sample.staleStore)
         !! key
       = MarketDataCache.client Sample.staleStore !! key.
Proof.
  exact (invalidate_removes_entry Sample.noon Sample.staleStore "Delhi"
           (now Sample.noon) eq_refl).
Defined.

Lemma lowerChar_idem (c : ascii) : Str.lowerChar (Str.lowerChar c) = Str.lowerChar c.
Proof. destruct c as [[] [] [] [] [] [] [] []]; reflexivity. Qed.

Lemma isSpace_lowerChar (c : ascii) : Str.isSpace (Str.lowerChar c) = Str.isSpace c.
Proof. destruct c as [[] [] [] [] [] [] [] []]; reflexivity. Qed.

Lemma toLowerCase_idem (s : string) :
  Str.toLowerCase (Str.toLowerCase s) = Str.toLowerCase s.
Proof.
  induction s as [|c s IH]; simpl; [reflexivity|].
  rewrite lowerChar_idem, IH. reflexivity.
Qed.

Lemma toLowerCase_replaceSpaces (inRun : bool) (s : string) :
  Str.toLowerCase (Str.replaceSpaces inRun s)
  = Str.replaceSpaces inRun (Str.toLowerCase s).
Proof.
  revert inRun. induction s as [|c s IH]; intros inRun; simpl; [reflexivity|].
  rewrite isSpace_lowerChar.
  destruct (Str.isSpace c); [destruct inRun|]; simpl; rewrite ?IH; reflexivity.
Qed.

Lemma replaceSpaces_idem (inRun inRun' : bool) (s : string) :
  Str.replaceSpaces inRun (Str.replaceSpaces inRun' s) = Str.replaceSpaces inRun' s.
Proof.
  revert inRun inRun'. induction s as [|c s IH]; intros inRun inRun'; simpl;
    [reflexivity|].
  destruct (Str.isSpace c) eqn:E; [destruct inRun'|]; simpl.
  - apply IH.
  - rewrite IH. reflexivity.
  - rewrite E, IH. reflexivity.
Qed.

Lemma normalize_idem (s : string) :
  MarketDataCache.normalize (MarketDataCache.normalize s) = MarketDataCache.normalize s.
Proof.
  unfold MarketDataCache.normalize.
  rewrite toLowerCase_replaceSpaces, toLowerCase_idem, replaceSpaces_idem.
  reflexivity.
Qed.

(** X15: cache keys do not tell a name from its normalised form: reading
    prices or a historical series for a location or product gives the same
    answer as reading them for the lower-cased name with every run of
    whitespace replaced by one hyphen. *)
Theorem cache_reads_ignore_spelling (clk : Clock) (c : MarketDataCache.t)
    (product location : string) (date : Date) (days : Z) :
  MarketDataCache.getCachedMandiPrices clk (MarketDataCache.normalize location) date c
  = MarketDataCache.getCachedMandiPrices clk location date c
  /\ MarketDataCache.getCachedHistoricalData clk (MarketDataCache.normalize product)
       (MarketDataCache.normalize location) days c
     = MarketDataCache.getCachedHistoricalData clk product location days c.
Proof.
  unfold MarketDataCache.getCachedMandiPrices, MarketDataCache.getCachedHistoricalData,
    MarketDataCache.generateMandiPricesKey, MarketDataCache.generateHistoricalDataKey.
  rewrite !normalize_idem. split; reflexivity.
Qed.

(** ** The cached adapter *)

Lemma fetch_fresh_hit (env : CachedMarketDataAdapter.Env) (a : CachedMarketDataAdapter.t)
    (location : string) (date : Date) (cached : list MandiPrice.t)
    (x : MandiPrice.t) (xs : list MandiPrice.t) :
  MarketDataCache.getCachedMandiPrices (CachedMarketDataAdapter.clock env) location date
    (CachedMarketDataAdapter.cache (initialized env a)) = Some cached ->
  filter (CachedMarketDataAdapter.validateDataFreshness env) cached = x :: xs ->
  CachedMarketDataAdapter.fetchMandiPrices env location date a
  = (x :: xs, initialized env a).
Proof.
  intros Hc Hf. unfold CachedMarketDataAdapter.fetchMandiPrices.
  fold (initialized env a). cbv zeta. rewrite Hc.
  destruct cached as [|y ys]; [discriminate|].
  cbn [CachedMarketDataAdapter.nonEmpty]. rewrite Hf. reflexivity.
Qed.

(** X16: when the cache holds prices for the location and date of which at
    least one record is fresh, [fetchMandiPrices] of the cached adapter
    returns exactly the fresh records, each of which passes the freshness
    check, and leaves the store alone; the answer is the same whatever the
    API adapter's fetches would have given, so the source is not needed. *)
Theorem fresh_hit_skips_source (env : CachedMarketDataAdapter.Env)
    (a : CachedMarketDataAdapter.t) (location : string) (date : Date)
    (cached : list MandiPrice.t) (x : MandiPrice.t) (xs : list MandiPrice.t) :
  MarketDataCache.getCachedMandiPrices (CachedMarketDataAdapter.clock env) location date
    (CachedMarketDataAdapter.cache (initialized env a)) = Some cached ->
  filter (CachedMarketDataAdapter.validateDataFreshness env) cached = x :: xs ->
  CachedMarketDataAdapter.fetchMandiPrices env location date a
  = (x :: xs, initialized env a)
  /\ (forall fetch history,
        CachedMarketDataAdapter.fetchMandiPrices (withFetch env fetch history)
          location date a
        = (x :: xs, initialized env a))
  /\ (forall p, In p (x :: xs) ->
        In p cached /\ CachedMarketDataAdapter.validateDataFreshness env p = true)
  /\ storeOf (initialized env a) = storeOf a.
Proof.
  intros Hc Hf. split; [|split; [|split]].
  - apply (fetch_fresh_hit env a location date cached); assumption.
  - intros fetch history.
    apply (fetch_fresh_hit (withFetch env fetch history) a location date cached);
      assumption.
  - intros p Hp. rewrite <- Hf in Hp. apply In_filter in Hp. exact Hp.
  - apply initialize_store.
Qed.

Lemma fresh_hit_skips_source_witness :
  let env := governmentEnv Sample.noon Sample.sourceDown Sample.sourceDown true in
  CachedMarketDataAdapter.fetchMandiPrices env "Delhi" (now Sample.noon)
    Sample.mixedAdapter
  = ([Sample.freshOnion], Sample.mixedAdapter).
Proof.
  intros env.
  assert (Hc : MarketDataCache.getCachedMandiPrices
                 (CachedMarketDataAdapter.clock env) "Delhi" (now Sample.noon)
                 (CachedMarketDataAdapter.cache (initialized env Sample.mixedAdapter))
               = Some [Sample.staleOnion; Sample.freshOnion])
    by (vm_compute; reflexivity).
  assert (Hf : filter (CachedMarketDataAdapter.validateDataFreshness env)
                 [Sample.staleOnion; Sample.freshOnion] = [Sample.freshOnion])
    by (vm_compute; reflexivity).
  exact (proj1 (fresh_hit_skips_source env Sample.mixedAdapter "Delhi"
                  (now Sample.noon) _ _ _ Hc Hf)).
Defined.

(** X17: while the cache is not connected (Redis unreachable, or the
    connection lost), the cached adapter passes the API adapter's answers
    through: [fetchMandiPrices] and [getHistoricalData] return what the API
    adapter returns, or the empty list when it rejects, and the store is not
    touched. *)
Theorem disconnected_cache_passes_through (env : CachedMarketDataAdapter.Env)
    (a : CachedMarketDataAdapter.t) (product location : string) (date : Date) (days : Z) :
  MarketDataCache.isConnected (CachedMarketDataAdapter.cache (initialized env a)) = false ->
  let api := CachedMarketDataAdapter.apiAdapter env in
  CachedMarketDataAdapter.fetchMandiPrices env location date a
  = (orEmpty (CachedMarketDataAdapter.api_fetchMandiPrices api location date),
     initialized env a)
  /\ CachedMarketDataAdapter.getHistoricalData env product location days a
     = (orEmpty (CachedMarketDataAdapter.api_getHistoricalData api product location days),
        initialized env a).
Proof.
  intros Hd api. subst api.
  unfold CachedMarketDataAdapter.fetchMandiPrices, CachedMarketDataAdapter.getHistoricalData.
  fold (initialized env a). cbv zeta.
  unfold MarketDataCache.getCachedMandiPrices, MarketDataCache.getCachedHistoricalData,
    MarketDataCache.cacheMandiPrices, MarketDataCache.cacheHistoricalData.
  rewrite Hd. cbn [negb CachedMarketDataAdapter.nonEmpty].
  split.
  - destruct (CachedMarketDataAdapter.api_fetchMandiPrices _ location date)
      as [[|x xs]|m]; cbn [orEmpty]; try reflexivity.
    unfold CachedMarketDataAdapter.withCache.
    destruct (initialized env a); reflexivity.
  - destruct (CachedMarketDataAdapter.api_getHistoricalData _ product location days)
      as [[|x xs]|m]; cbn [orEmpty]; try reflexivity.
    unfold CachedMarketDataAdapter.withCache.
    destruct (initialized env a); reflexivity.
Qed.

Lemma disconnected_cache_passes_through_witness :
  let env := {| CachedMarketDataAdapter.clock := Sample.noon;
                CachedMarketDataAdapter.apiAdapter :=
                  CachedMarketDataAdapter.government Sample.noon Sample.sourceFlaky
                    Sample.sourceDown;
                CachedMarketDataAdapter.redisReachable := false |} in
  fst (CachedMarketDataAdapter.fetchMandiPrices env "Delhi" (now Sample.noon)
         Sample.newAdapter)
  = GovernmentMarketDataAdapter.fetchMandiPrices Sample.noon Sample.sourceFlaky
      "Delhi" (now Sample.noon).
Proof.
  intros env.
  exact (f_equal fst
           (proj1 (disconnected_cache_passes_through env Sample.newAdapter "onion"
                     "Delhi" (now Sample.noon) 30 eq_refl))).
Defined.







(** X19: a record the cached adapter's freshness check accepts is one the
    source client's check accepts too, and it is less than 12 hours old,
    verified and priced above zero, at every hour of the day. *)
Theorem enhanced_freshness_is_stricter
    (clk : Clock) httpPrices httpHistory reachable (data : MandiPrice.t) :
  CachedMarketDataAdapter.validateDataFreshness
    (governmentEnv clk httpPrices httpHistory reachable) data = true ->
  GovernmentMarketDataAdapter.validateDataFreshness clk data = true
  /\ age clk data < hoursMs 12
  /\ MandiPrice.verified data = true
  /\ positive (MandiPrice.price data).
Proof.
  unfold CachedMarketDataAdapter.validateDataFreshness.
  cbn [governmentEnv CachedMarketDataAdapter.apiAdapter CachedMarketDataAdapter.clock
    CachedMarketDataAdapter.government CachedMarketDataAdapter.api_validateDataFreshness].
  destruct (GovernmentMarketDataAdapter.validateDataFreshness clk data) eqn:Hb;
    cbn [negb]; [|discriminate].
  intros H. apply Z.ltb_lt in H.
  apply source_validateDataFreshness_true in Hb as (_ & Hv & Hp).
  repeat split; auto.
  unfold age, hoursMs, CachedMarketDataAdapter.sixHoursMs,
    CachedMarketDataAdapter.twelveHoursMs in *.
  destruct ((6 <=? getHours clk) && (getHours clk <=? 18)); lia.
Qed.

Lemma enhanced_freshness_is_stricter_witness :
  GovernmentMarketDataAdapter.validateDataFreshness Sample.noon Sample.freshOnion = true
  /\ age Sample.noon Sample.freshOnion < hoursMs 12
  /\ MandiPrice.verified Sample.freshOnion = true
  /\ positive (MandiPrice.price Sample.freshOnion).
Proof.
  apply (enhanced_freshness_is_stricter Sample.noon Sample.sourceDown Sample.sourceDown true).
  vm_compute. reflexivity.
Defined.

(** X20: a non-empty historical series in the cache is returned whole by
    [getHistoricalData] of the cached adapter, however old its points are and
    whatever the API adapter would have answered. *)
Theorem historical_hit_skips_source (env : CachedMarketDataAdapter.Env)
    (a : CachedMarketDataAdapter.t) (product location : string) (days : Z)
    (x : HistoricalPrice.t) (xs : list HistoricalPrice.t) :
  MarketDataCache.getCachedHistoricalData (CachedMarketDataAdapter.clock env)
    product location days (CachedMarketDataAdapter.cache (initialized env a))
  = Some (x :: xs) ->
  forall fetch history,
    CachedMarketDataAdapter.getHistoricalData (withFetch env fetch history)
      product location days a
    = (x :: xs, initialized env a).
Proof.
  intros Hc fetch history. unfold CachedMarketDataAdapter.getHistoricalData.
  change (if negb (CachedMarketDataAdapter.isInitialized a)
          then CachedMarketDataAdapter.initialize (withFetch env fetch history) a
          else a) with (initialized env a).
  cbv zeta. cbn [withFetch CachedMarketDataAdapter.clock].
  rewrite Hc. reflexivity.
Qed.

Lemma historical_hit_skips_source_witness :
  CachedMarketDataAdapter.getHistoricalData
    (withFetch (governmentEnv Sample.noon Sample.sourceDown Sample.sourceDown true)
       (fun _ _ => Err "API Error") (fun _ _ _ => Err "API Error"))
    "onion" "delhi" 30 Sample.historyAdapter
  = ([Sample.oldPoint], Sample.historyAdapter).
Proof.
  apply (historical_hit_skips_source
           (governmentEnv Sample.noon Sample.sourceDown Sample.sourceDown true)
           Sample.historyAdapter "onion" "delhi" 30 Sample.oldPoint []).
  vm_compute. reflexivity.
Defined.

(** ** Trend and confidence *)

Lemma lastN_short {A} (n : nat) (xs : list A) :
  (List.length xs <= n)%nat -> lastN n xs = xs.
Proof.
  intros H. unfold lastN. replace (List.length xs - n)%nat with 0%nat by lia.
  reflexivity.
Qed.

Lemma firstN_short {A} (n : nat) (xs : list A) :
  (List.length xs <= n)%nat -> firstN n xs = xs.
Proof. intros H. unfold firstN. apply firstn_all2. exact H. Qed.

(** The relative change of a value against itself is zero or NaN. *)
Lemma self_change (m : number) :
  (((m - m) / m) >? dec 5 100)%js = false
  /\ (((m - m) / m) <? dec (-5) 100)%js = false.
Proof.
  destruct m as [q| | |]; try (split; reflexivity).
  unfold sub, neg, add, div.
  assert (Hz : (q + - q == 0)%Q) by apply Qplus_opp_r.
  destruct (Qeqb q 0) eqn:E.
  - unfold signedInf.
    replace (Qltb 0 (q + - q)) with false
      by (symmetry; apply Qltb_ge; rewrite Hz; apply Qle_refl).
    replace (Qltb (q + - q) 0) with false
      by (symmetry; apply Qltb_ge; rewrite Hz; apply Qle_refl).
    split; reflexivity.
  - assert (H0 : ((q + - q) / q == 0)%Q).
    { unfold Qdiv. rewrite Hz. apply Qmult_0_l. }
    unfold gt, lt, dec. rewrite !Qltb_ge, H0. split; discriminate.
Qed.

Lemma calculateTrend_short (points : list PricePoint.t) :
  (List.length points <= 7)%nat -> PriceDiscoveryService.calculateTrend points = stable.
Proof.
  intros Hlen.
  destruct (Nat.lt_ge_cases (List.length points) 2) as [Hlt|Hge].
  - unfold PriceDiscoveryService.calculateTrend.
    replace (List.length points <? 2)%nat with true; [reflexivity|].
    symmetry. apply Nat.ltb_lt. exact Hlt.
  - rewrite (calculateTrend_change _ Hge). unfold relativeChange.
    rewrite lastN_short, firstN_short by (rewrite length_map; exact Hlen).
    destruct (self_change (mean (map PricePoint.price points))) as [-> ->].
    reflexivity.
Qed.

Lemma getPriceHistory_Ok (Math_sqrt : number -> number) (adapter : MarketDataAdapter)
    (product : ProductQuery.t) (days : Z) (h : PriceHistory.t) :
  PriceDiscoveryService.getPriceHistory Math_sqrt adapter product days = Ok h ->
  exists past,
    getHistoricalData adapter (ProductQuery.name product)
      (ProductQuery.location product) days = Ok past
    /\ 1 <= days <= 365
    /\ PriceHistory.prices h = map (PriceDiscoveryService.toPricePoint "official") past
    /\ PriceHistory.trend h = PriceDiscoveryService.calculateTrend (PriceHistory.prices h)
    /\ PriceHistory.volatility h
       = PriceDiscoveryService.calculateVolatility Math_sqrt (PriceHistory.prices h).
Proof.
  unfold PriceDiscoveryService.getPriceHistory.
  destruct (negb (isValid (validateProductQuery product))); [discriminate|].
  destruct ((days <=? 0) || (365 <? days)) eqn:Hd; [discriminate|].
  apply orb_false_iff in Hd as [H1 H2].
  apply Z.leb_gt in H1. apply Z.ltb_ge in H2.
  destruct (getHistoricalData adapter _ _ days) as [past|m]; simpl;
    [|discriminate].
  intros H; inversion H; subst; clear H. exists past.
  cbn [PriceHistory.prices PriceHistory.trend PriceHistory.volatility].
  repeat split; auto; lia.
Qed.

(** X21: a history of at most seven points is never rising or falling: for
    such a series the last seven and the first seven points are the same
    points, so [getPriceHistory] reports the trend stable whatever the
    prices are. *)
Theorem short_history_is_stable (Math_sqrt : number -> number)
    (adapter : MarketDataAdapter) (product : ProductQuery.t) (days : Z)
    (h : PriceHistory.t) :
  PriceDiscoveryService.getPriceHistory Math_sqrt adapter product days = Ok h ->
  (List.length (PriceHistory.prices h) <= 7)%nat ->
  PriceHistory.trend h = stable.
Proof.
  intros Hcall Hlen.
  destruct (getPriceHistory_Ok _ _ _ _ _ Hcall) as (past & _ & _ & _ & Ht & _).
  rewrite Ht. apply calculateTrend_short. exact Hlen.
Qed.

Lemma short_history_is_stable_witness :
  exists h,
    PriceDiscoveryService.getPriceHistory Sample.sqrtApprox
      (Sample.historySource (map ofZ [10; 20; 40; 80; 160; 320; 640]))
      Sample.tomato 7 = Ok h
    /\ PriceHistory.trend h = stable.
Proof.
  eexists.
  assert (E : PriceDiscoveryService.getPriceHistory Sample.sqrtApprox
      (Sample.historySource (map ofZ [10; 20; 40; 80; 160; 320; 640]))
      Sample.tomato 7 = Ok _) by (vm_compute; reflexivity).
  split; [exact E|].
  apply (short_history_is_stable _ _ _ _ _ E). simpl. lia.
Defined.

Lemma calculateConfidence_value (n : nat) :
  exists m : Q,
    (0 <= m)%Q /\ (m <= 1)%Q
    /\ ((30 <= n)%nat -> (m == 1)%Q)
    /\ PriceDiscoveryService.calculateConfidence (ofNat n) (ofZ 30)
       = Fin (hundredths (Qfloor (m * (8 # 10) * inject_Z 100 + (1 # 2)))).
Proof.
  set (x := (inject_Z (Z.of_nat n) / inject_Z 30)%Q).
  assert (Hx0 : (0 <= x)%Q).
  { subst x. apply Qle_shift_div_l; [reflexivity|].
    rewrite Qmult_0_l. change 0%Q with (inject_Z 0). rewrite <- Zle_Qle. lia. }
  assert (Hdiv : (ofNat n / ofZ 30)%js = Fin x) by reflexivity.
  unfold PriceDiscoveryService.calculateConfidence. rewrite Hdiv.
  unfold Math_min. cbn [isNaN orb n1 ofZ lt].
  destruct (Qltb (inject_Z 1) x) eqn:E.
  - exists 1%Q. repeat split; try discriminate; try reflexivity.
  - exists x. apply Qltb_ge in E. change (inject_Z 1) with 1%Q in E.
    repeat split; auto.
    intros Hn. apply Qle_antisym; [exact E|].
    subst x. apply Qle_shift_div_l; [reflexivity|].
    rewrite Qmult_1_l. rewrite <- Zle_Qle. lia.
Qed.

(** X22: the confidence of the statistical estimate is a whole number of
    hundredths between 0 and 0.80, and it is 0.80 as soon as the series has
    30 points. *)
Theorem statistical_confidence_bounds (clk : Clock) (product : ProductQuery.t)
    (historicalData : list HistoricalPrice.t) :
  exists k : Z,
    PriceInfo.confidence
      (EstimatedPrice.info
         (PriceDiscoveryService.estimateFromHistoricalData clk product historicalData))
    = Fin (hundredths k)
    /\ (0 <= k <= 80)%Z
    /\ ((30 <= List.length historicalData)%nat -> k = 80%Z).
Proof.
  cbn [PriceDiscoveryService.estimateFromHistoricalData EstimatedPrice.info
    PriceInfo.confidence].
  unfold PriceDiscoveryService.length_.
  destruct (calculateConfidence_value (List.length historicalData))
    as (m & H0 & H1 & H30 & ->).
  eexists. split; [reflexivity|].
  change (inject_Z 100) with 100%Q.
  split; [split|].
  - change 0%Z with (Qfloor (1 # 2)). apply Qfloor_resp_le. nra.
  - change 80%Z with (Qfloor (161 # 2)). apply Qfloor_resp_le. nra.
  - intros Hn. specialize (H30 Hn).
    change 80%Z with (Qfloor (161 # 2)). apply Qfloor_comp. rewrite H30. reflexivity.
Qed.

(** ** The price discovery service, continued *)

Lemma getCurrentPrice_miss (Math_sqrt : number -> number) (clk : Clock)
    (adapter : MarketDataAdapter) (ai : AIService) (product : ProductQuery.t)
    (s : PriceDiscoveryService.t) :
  isValid (validateProductQuery product) = true ->
  cacheMiss clk product s ->
  PriceDiscoveryService.getCurrentPrice Math_sqrt clk adapter ai product s
  = match PriceDiscoveryService.computeCurrentPrice Math_sqrt clk adapter ai product with
    | Ok priceInfo =>
        (Ok priceInfo,
         {| PriceDiscoveryService.priceCache :=
              <[PriceDiscoveryService.generateCacheKey product :=
                  {| PriceDiscoveryService.data := priceInfo;
                     PriceDiscoveryService.timestamp := now clk |}]>
                (PriceDiscoveryService.priceCache s) |})
    | Err message =>
        (Err ("Failed to get price for " ++ ProductQuery.name product
              ++ ": " ++ message)%string, s)
    end.
Proof.
  intros Hvalid Hmiss. unfold PriceDiscoveryService.getCurrentPrice.
  rewrite Hvalid. cbn [negb]. cbv zeta.
  destruct (PriceDiscoveryService.priceCache s
              !! PriceDiscoveryService.generateCacheKey product) as [e|] eqn:Hl.
  - rewrite (Hmiss e Hl). reflexivity.
  - reflexivity.
Qed.









(** X25: [estimatePrice] raises in two cases only: the query is invalid, or
    the adapter's history fetch rejects.  Whenever the history fetch
    resolves, empty or not, an estimate is returned, whether or not the AI
    service answers. *)
Theorem estimatePrice_raises_iff (Math_sqrt : number -> number) (clk : Clock)
    (adapter : MarketDataAdapter) (ai : AIService) (product : ProductQuery.t) :
  (exists message,
     PriceDiscoveryService.estimatePrice Math_sqrt clk adapter ai product = Err message)
  <-> isValid (validateProductQuery product) = false
      \/ exists message,
           getHistoricalData adapter (ProductQuery.name product)
             (ProductQuery.location product) 30 = Err message.
Proof.
  unfold PriceDiscoveryService.estimatePrice.
  destruct (isValid (validateProductQuery product)); cbn [negb].
  - destruct (getHistoricalData adapter _ _ 30) as [[|x xs]|m]; cbn [bind tryCatch].
    + destruct (estimatePriceWithAI ai product [] _); cbn [tryCatch];
        split; [intros [? H]; discriminate | intros [H|[? H]]; discriminate
               | intros [? H]; discriminate | intros [H|[? H]]; discriminate].
    + destruct (estimatePriceWithAI ai product _ _); cbn [tryCatch];
        split; [intros [? H]; discriminate | intros [H|[? H]]; discriminate
               | intros [? H]; discriminate | intros [H|[? H]]; discriminate].
    + split; [intros _; right; eauto | intros _; eauto].
  - split; [intros _; left; reflexivity | intros _; eauto].
Qed.

(** X26: a call of [getCurrentPrice] changes the short-term cache under the
    key of its query at most: every other key holds what it held; when the
    call raises the cache is exactly as before, and when it returns a price
    that price is what the cache then holds under the key. *)
Theorem getCurrentPrice_touches_one_key (Math_sqrt : number -> number) (clk : Clock)
    (adapter : MarketDataAdapter) (ai : AIService) (product : ProductQuery.t)
    (s : PriceDiscoveryService.t) :
  let result := PriceDiscoveryService.getCurrentPrice Math_sqrt clk adapter ai product s in
  let key := PriceDiscoveryService.generateCacheKey product in
  (forall k, k <> key ->
     PriceDiscoveryService.priceCache (snd result) !! k
     = PriceDiscoveryService.priceCache s !! k)
  /\ (forall message, fst result = Err message -> snd result = s)
  /\ (forall p, fst result = Ok p ->
        exists e, PriceDiscoveryService.priceCache (snd result) !! key = Some e
                  /\ PriceDiscoveryService.data e = p).
Proof.
  intros result key. subst key.
  destruct result as [[p|m] s'] eqn:E; subst result; cbn [fst snd].
  - apply getCurrentPrice_cases in E as [[_ ->]|(e & Hl & _ & -> & ->)].
    + split; [|split].
      * intros k Hk. cbn [PriceDiscoveryService.priceCache].
        apply lookup_insert_ne. intros Heq. apply Hk. symmetry. exact Heq.
      * discriminate.
      * intros p' Hp. inversion Hp; subst. eexists.
        cbn [PriceDiscoveryService.priceCache]. split; [apply lookup_insert_eq|].
        reflexivity.
    + split; [|split]; try discriminate; auto.
      intros p' Hp. inversion Hp; subst. exists e. auto.
  - apply getCurrentPrice_Err_state in E. subst s'.
    split; [|split]; auto. discriminate.
Qed.

(** X27: a short-term cache entry that is five minutes old or older counts
    for nothing: the call returns what a service with an empty cache would
    return, and when that is a price the entry is replaced by it, stamped
    with the time of the call. *)
Theorem expired_entry_is_recomputed (Math_sqrt : number -> number) (clk : Clock)
    (adapter : MarketDataAdapter) (ai : AIService) (product : ProductQuery.t)
    (s : PriceDiscoveryService.t) (e : PriceDiscoveryService.CacheEntry) :
  PriceDiscoveryService.priceCache s !! PriceDiscoveryService.generateCacheKey product
    = Some e ->
  5 * 60 * 1000 <= now clk - PriceDiscoveryService.timestamp e ->
  let result := PriceDiscoveryService.getCurrentPrice Math_sqrt clk adapter ai product s in
  fst result
  = fst (PriceDiscoveryService.getCurrentPrice Math_sqrt clk adapter ai product
           PriceDiscoveryService.create)
  /\ (forall p, fst result = Ok p ->
        PriceDiscoveryService.priceCache (snd result)
          !! PriceDiscoveryService.generateCacheKey product
        = Some {| PriceDiscoveryService.data := p;
                  PriceDiscoveryService.timestamp := now clk |}).
Proof.
  intros Hl Hold result. subst result.
  destruct (isValid (validateProductQuery product)) eqn:Hvalid.
  - assert (Hmiss : cacheMiss clk product s).
    { intros e' He'. rewrite Hl in He'. inversion He'; subst e'.
      unfold PriceDiscoveryService.isCacheValid, PriceDiscoveryService.CACHE_TTL_MS.
      apply Z.ltb_ge. exact Hold. }
    assert (Hmiss0 : cacheMiss clk product PriceDiscoveryService.create).
    { intros e' He'. cbn in He'. rewrite lookup_empty in He'. discriminate. }
    rewrite (getCurrentPrice_miss _ _ _ _ _ _ Hvalid Hmiss),
      (getCurrentPrice_miss _ _ _ _ _ _ Hvalid Hmiss0).
    destruct (PriceDiscoveryService.computeCurrentPrice Math_sqrt clk adapter ai product)
      as [pi|m]; cbn [fst snd]; split; try reflexivity.
    + intros p Hp. inversion Hp; subst. cbn [PriceDiscoveryService.priceCache].
      apply lookup_insert_eq.
    + discriminate.
  - unfold PriceDiscoveryService.getCurrentPrice. rewrite Hvalid. cbn [negb fst snd].
    split; [reflexivity|discriminate].
Qed.

Lemma expired_entry_is_recomputed_witness :
  let s1 := snd (PriceDiscoveryService.getCurrentPrice Sample.sqrtApprox Sample.noon
                   Sample.tomatoSource Sample.aiDown Sample.tomato
                   PriceDiscoveryService.create) in
  let result := PriceDiscoveryService.getCurrentPrice Sample.sqrtApprox Sample.noonPlusSix
                  (Sample.historySource []) Sample.aiDown Sample.tomato s1 in
  fst result
  = fst (PriceDiscoveryService.getCurrentPrice Sample.sqrtApprox Sample.noonPlusSix
           (Sample.historySource []) Sample.aiDown Sample.tomato
           PriceDiscoveryService.create)
  /\ (forall p, fst result = Ok p ->
        PriceDiscoveryService.priceCache (snd result)
          !! PriceDiscoveryService.generateCacheKey Sample.tomato
        = Some {| PriceDiscoveryService.data := p;
                  PriceDiscoveryService.timestamp := now Sample.noonPlusSix |}).
Proof.
  intros s1.
  eapply (expired_entry_is_recomputed Sample.sqrtApprox Sample.noonPlusSix
            (Sample.historySource []) Sample.aiDown Sample.tomato s1).
  - vm_compute. reflexivity.
  - vm_compute. discriminate.
Defined.

(** ** Market sentiment *)

(** X28: the statistical sentiment confidence is a finite number between
    0.5 and 1 for every history whose volatility is a number, and NaN when
    the volatility is NaN. *)
Theorem sentiment_confidence_bounds
    (priceHistory : PriceHistory.t) :
  (isNaN (PriceHistory.volatility priceHistory) = false ->
   exists c, PriceDiscoveryService.calculateSentimentConfidence priceHistory = Fin c
             /\ ((1 # 2) <= c)%Q /\ (c <= 1)%Q)
  /\ (isNaN (PriceHistory.volatility priceHistory) = true ->
      PriceDiscoveryService.calculateSentimentConfidence priceHistory = NaN).
Proof.
  unfold PriceDiscoveryService.calculateSentimentConfidence,
    PriceDiscoveryService.length_.
  set (n := List.length (PriceHistory.prices priceHistory)).
  set (x := (inject_Z (Z.of_nat n) / inject_Z 30)%Q).
  assert (Hx0 : (0 <= x)%Q).
  { subst x. apply Qle_shift_div_l; [reflexivity|].
    rewrite Qmult_0_l. change 0%Q with (inject_Z 0). rewrite <- Zle_Qle. lia. }
  assert (Hdiv : (ofNat n / ofZ 30)%js = Fin x) by reflexivity.
  rewrite Hdiv. cbv zeta.
  assert (Hm : exists m, Math_min (Fin x) (dec 3 10) = Fin m
                         /\ (0 <= m)%Q /\ (m <= 3 # 10)%Q).
  { unfold Math_min, dec. cbn [isNaN orb lt].
    destruct (Qltb (3 # 10) x) eqn:E.
    - exists (3 # 10). repeat split; try discriminate.
    - exists x. apply Qltb_ge in E. repeat split; auto. }
  destruct Hm as (m & -> & Hm0 & Hm1).
  unfold dec at 1. cbn [add].
  split.
  - destruct (PriceHistory.volatility priceHistory) as [v| | |]; try discriminate;
      intros _.
    + unfold sub, neg, dec, add, Math_max, n0, ofZ. cbn [isNaN orb lt add].
      destruct (Qltb ((2 # 10) + - v) (inject_Z 0)) eqn:Ev.
      * unfold Math_min, n1, ofZ. cbn [isNaN orb lt add].
        destruct (Qltb (inject_Z 1) ((5 # 10) + m + inject_Z 0)) eqn:E1.
        -- exists (inject_Z 1). repeat split; try discriminate.
        -- exists ((5 # 10) + m + inject_Z 0)%Q. apply Qltb_ge in E1.
           change (inject_Z 0) with 0%Q in *. change (inject_Z 1) with 1%Q in *.
           repeat split; auto; lra.
      * apply Qltb_ge in Ev. change (inject_Z 0) with 0%Q in Ev.
        unfold Math_min, n1, ofZ. cbn [isNaN orb lt add].
        destruct (Qltb (inject_Z 1) ((5 # 10) + m + ((2 # 10) + - v))) eqn:E1.
        -- exists (inject_Z 1). repeat split; try discriminate.
        -- exists ((5 # 10) + m + ((2 # 10) + - v))%Q. apply Qltb_ge in E1.
           change (inject_Z 1) with 1%Q in *.
           repeat split; auto; lra.
    + (* volatility +Infinity *)
      unfold sub, neg, dec, add, Math_max, n0, ofZ. cbn [isNaN orb lt add].
      unfold Math_min, n1, ofZ. cbn [isNaN orb lt add].
      destruct (Qltb (inject_Z 1) ((5 # 10) + m + inject_Z 0)) eqn:E1.
      * exists (inject_Z 1). repeat split; try discriminate.
      * exists ((5 # 10) + m + inject_Z 0)%Q. apply Qltb_ge in E1.
        change (inject_Z 0) with 0%Q in *. change (inject_Z 1) with 1%Q in *.
        repeat split; auto; lra.
    + (* volatility -Infinity *)
      exists (inject_Z 1). repeat split; try discriminate.
  - destruct (PriceHistory.volatility priceHistory); try discriminate.
    intros _. reflexivity.
Qed.

Lemma identifyMarketFactors_shape (priceHistory : PriceHistory.t) :
  exists first rest,
    PriceDiscoveryService.identifyMarketFactors priceHistory = first :: rest
    /\ ~ In "Normal market conditions"%string
         (PriceDiscoveryService.identifyMarketFactors priceHistory)
    /\ ((List.length (PriceHistory.prices priceHistory) < 10)%nat
        <-> In "Limited data availability"%string
              (PriceDiscoveryService.identifyMarketFactors priceHistory)).
Proof.
  unfold PriceDiscoveryService.identifyMarketFactors.
  destruct (Nat.ltb_spec (List.length (PriceHistory.prices priceHistory)) 10)
    as [Hlt|Hge];
    destruct (PriceHistory.trend priceHistory);
    destruct (PriceHistory.volatility priceHistory >? dec 15 100)%js;
    cbn [PriceDiscoveryService.isRising PriceDiscoveryService.isFalling pushIf
         app List.length Nat.eqb];
    eexists; eexists; (split; [reflexivity|]);
    (split; [simpl; intros H; repeat destruct H as [H|H]; try discriminate; exact H|]);
    (split; [intros Hl; try lia; simpl; tauto|]);
    simpl; intros H; repeat destruct H as [H|H]; try discriminate; try lia;
    try contradiction.
Qed.

Lemma analyzeSentiment_stable (priceHistory : PriceHistory.t) :
  PriceHistory.trend priceHistory = stable ->
  PriceDiscoveryService.analyzeSentiment priceHistory = neutral.
Proof.
  unfold PriceDiscoveryService.analyzeSentiment. intros ->.
  cbn [PriceDiscoveryService.isRising PriceDiscoveryService.isFalling andb].
  destruct (PriceHistory.volatility priceHistory >? dec 2 10)%js; reflexivity.
Qed.

(** X29: when the AI service rejects the sentiment request,
    [getMarketSentiment] still answers, from the thirty-day history: the
    list of factors is never empty and never holds the filler entry
    "Normal market conditions", it holds "Limited data availability" exactly
    when the source gave fewer than ten points, and with at most seven
    points the sentiment is neutral. *)
Theorem statistical_sentiment_fallback (Math_sqrt : number -> number) (clk : Clock)
    (adapter : MarketDataAdapter) (ai : SentimentService) (product : ProductQuery.t)
    (past : list HistoricalPrice.t) :
  isValid (validateProductQuery product) = true ->
  getHistoricalData adapter (ProductQuery.name product)
    (ProductQuery.location product) 30 = Ok past ->
  (forall prices factors,
     exists m, generateMarketSentiment ai product prices factors = Err m) ->
  exists ms,
    PriceDiscoveryService.getMarketSentiment Math_sqrt clk adapter ai product = Ok ms
    /\ MarketSentiment.product ms = ProductQuery.name product
    /\ MarketSentiment.location ms = ProductQuery.location product
    /\ MarketSentiment.lastAnalyzed ms = now clk
    /\ MarketSentiment.factors ms <> []
    /\ ~ In "Normal market conditions"%string (MarketSentiment.factors ms)
    /\ ((List.length past < 10)%nat
        <-> In "Limited data availability"%string (MarketSentiment.factors ms))
    /\ ((List.length past <= 7)%nat -> MarketSentiment.sentiment ms = neutral).
Proof.
  intros Hvalid Hpast Hai.
  unfold PriceDiscoveryService.getMarketSentiment,
    PriceDiscoveryService.getPriceHistory.
  rewrite Hvalid. cbn [negb]. rewrite Hpast.
  cbn [Z.leb Z.ltb Z.compare orb Pos.compare Pos.compare_cont bind tryCatch].
  match goal with
  | |- context [generateMarketSentiment ai product ?ps ?fs] =>
      destruct (Hai ps fs) as [m ->]
  end.
  cbn [tryCatch].
  eexists. split; [reflexivity|].
  cbn [MarketSentiment.product MarketSentiment.location MarketSentiment.lastAnalyzed
       MarketSentiment.factors MarketSentiment.sentiment].
  match goal with
  | |- context [PriceDiscoveryService.identifyMarketFactors ?h] =>
      destruct (identifyMarketFactors_shape h) as (first & rest & Hshape & Hnormal & Hlim);
      set (hist := h) in *
  end.
  repeat split; auto.
  - rewrite Hshape. discriminate.
  - intros Hl. apply Hlim. subst hist. cbn [PriceHistory.prices].
    rewrite length_map. exact Hl.
  - intros Hin. apply Hlim in Hin. subst hist. cbn [PriceHistory.prices] in Hin.
    rewrite length_map in Hin. exact Hin.
  - intros Hl. apply analyzeSentiment_stable. subst hist.
    cbn [PriceHistory.trend]. apply calculateTrend_short.
    rewrite length_map. exact Hl.
Qed.

Lemma statistical_sentiment_fallback_witness :
  exists ms,
    PriceDiscoveryService.getMarketSentiment Sample.sqrtApprox Sample.noon
      (Sample.historySource (map ofZ [10; 20; 40; 80; 160; 320; 640]))
      Sample.sentimentDown Sample.tomato = Ok ms
    /\ MarketSentiment.factors ms <> []
    /\ MarketSentiment.sentiment ms = neutral.
Proof.
  destruct (statistical_sentiment_fallback Sample.sqrtApprox Sample.noon
              (Sample.historySource (map ofZ [10; 20; 40; 80; 160; 320; 640]))
              Sample.sentimentDown Sample.tomato
              (map (Sample.history (now Sample.noon - 86400000))
                 (map ofZ [10; 20; 40; 80; 160; 320; 640])))
    as (ms & Hcall & _ & _ & _ & Hne & _ & _ & Hshort).
  - vm_compute. reflexivity.
  - vm_compute. reflexivity.
  - intros prices factors. eexists. reflexivity.
  - exists ms. split; [exact Hcall|]. split; [exact Hne|].
    apply Hshort. simpl. lia.
Defined.

(** ** Display *)

Lemma ofChars_chars (s : string) : string_of_list_ascii (chars s) = s.
Proof.
  induction s as [|c s IH]; simpl; [reflexivity|]. rewrite IH. reflexivity.
Qed.

Lemma chars_ofChars (l : list ascii) : chars (string_of_list_ascii l) = l.
Proof.
  induction l as [|c l IH]; simpl; [reflexivity|]. rewrite IH. reflexivity.
Qed.

Lemma splitDot_nodot (s : string) (current : string -> string) :
  ~ In "."%char (chars s) -> splitDot s current = [current s].
Proof.
  revert current. induction s as [|c s IH]; intros current Hno; simpl.
  - reflexivity.
  - destruct (Ascii.eqb_spec c ".") as [->|Hc].
    + exfalso. apply Hno. simpl. auto.
    + rewrite IH; [reflexivity|]. intros Hin. apply Hno. simpl. auto.
Qed.

Lemma splitDot_app (a rest : string) (current : string -> string) :
  ~ In "."%char (chars a) ->
  splitDot (a ++ String "." rest) current
  = current a :: splitDot rest (fun x => x).
Proof.
  revert current. induction a as [|c a IH]; intros current Hno; simpl.
  - reflexivity.
  - destruct (Ascii.eqb_spec c ".") as [->|Hc].
    + exfalso. apply Hno. simpl. auto.
    + rewrite IH; [reflexivity|]. intros Hin. apply Hno. simpl. auto.
Qed.

Lemma groupLoop_step (c : ascii) (rest : list ascii) (i : nat) (acc : string) :
  groupLoop (c :: rest) i acc
  = groupLoop rest (S i)
      (String c (if (i =? 3)%nat || ((3 <? i)%nat && ((i - 3) mod 2 =? 0)%nat)
                 then String "," acc else acc)).
Proof.
  reflexivity.
Qed.

Lemma comma_at_odd (i k : nat) :
  i = (3 + 2 * k)%nat ->
  (i =? 3)%nat || ((3 <? i)%nat && ((i - 3) mod 2 =? 0)%nat) = true.
Proof.
  intros ->. destruct (Nat.eqb_spec (3 + 2 * k) 3) as [|Hne]; [reflexivity|].
  cbn [orb]. replace (3 + 2 * k - 3)%nat with (k * 2)%nat by lia.
  rewrite Nat.Div0.mod_mul. cbn [Nat.eqb]. rewrite andb_true_r.
  apply Nat.ltb_lt. lia.
Qed.

Lemma no_comma_at_even (i k : nat) :
  i = (4 + 2 * k)%nat ->
  (i =? 3)%nat || ((3 <? i)%nat && ((i - 3) mod 2 =? 0)%nat) = false.
Proof.
  intros ->. destruct (Nat.eqb_spec (4 + 2 * k) 3) as [Heq|Hne]; [lia|].
  cbn [orb]. replace (4 + 2 * k - 3)%nat with (1 + k * 2)%nat by lia.
  rewrite Nat.Div0.mod_add. cbn. reflexivity.
Qed.

Lemma furtherGroups_cons2 (a b : ascii) (rest : list ascii) :
  furtherGroups (a :: b :: rest) = ","%char :: a :: b :: furtherGroups rest.
Proof.
  destruct rest; reflexivity.
Qed.

Lemma groupLoop_further (n : nat) :
  forall (l : list ascii) (i k : nat) (acc : string),
    i = (3 + 2 * k)%nat -> (List.length l <= n)%nat ->
    groupLoop l i acc = string_of_list_ascii (rev (furtherGroups l) ++ chars acc).
Proof.
  induction n as [|n IH]; intros l i k acc Hi Hlen.
  - destruct l; [|simpl in Hlen; lia]. simpl. symmetry. apply ofChars_chars.
  - destruct l as [|a [|b rest]].
    + simpl. symmetry. apply ofChars_chars.
    + rewrite groupLoop_step, (comma_at_odd i k Hi). simpl.
      rewrite ofChars_chars. reflexivity.
    + rewrite groupLoop_step, (comma_at_odd i k Hi).
      rewrite groupLoop_step, (no_comma_at_even (S i) k) by lia.
      rewrite (IH rest (S (S i)) (S k)) by (simpl in Hlen; lia).
      rewrite furtherGroups_cons2. simpl rev. simpl chars.
      rewrite <- !app_assoc. reflexivity.
Qed.

Lemma groupLoop_indian (l : list ascii) :
  groupLoop l 0 EmptyString = string_of_list_ascii (rev (indianRev l)).
Proof.
  destruct l as [|a [|b [|c rest]]]; try reflexivity.
  do 3 rewrite groupLoop_step. cbn [Nat.eqb Nat.ltb Nat.leb orb andb].
  rewrite (groupLoop_further (List.length rest) rest 3 0) by lia.
  cbn [indianRev]. simpl rev. simpl chars. rewrite <- !app_assoc. reflexivity.
Qed.

Lemma pairs_cons2 (a b : ascii) (rest : list ascii) :
  pairs (a :: b :: rest) = a :: b :: furtherGroups rest.
Proof.
  destruct rest; reflexivity.
Qed.

Lemma furtherGroups_strip (n : nat) :
  forall l : list ascii,
    (List.length l <= n)%nat -> ~ In ","%char l ->
    List.filter notComma (furtherGroups l) = l.
Proof.
  assert (Hkeep : forall c : ascii, c <> ","%char -> notComma c = true).
  { intros c Hc. unfold notComma. destruct (Ascii.eqb_spec c ","); [contradiction|].
    reflexivity. }
  induction n as [|n IH]; intros l Hlen Hno.
  - destruct l; [reflexivity|simpl in Hlen; lia].
  - destruct l as [|a [|b rest]].
    + reflexivity.
    + simpl. rewrite Hkeep; [reflexivity|]. intros ->. apply Hno. simpl. auto.
    + rewrite furtherGroups_cons2. cbn [List.filter].
      change (notComma ",") with false. cbn iota.
      rewrite (Hkeep a), (Hkeep b).
      * rewrite IH; [reflexivity|simpl in Hlen; lia|].
        intros Hin. apply Hno. simpl. auto.
      * intros ->. apply Hno. simpl. auto.
      * intros ->. apply Hno. simpl. auto.
Qed.

Lemma indianGrouping_strip (s : string) :
  ~ In ","%char (chars s) -> withoutCommas (indianGrouping s) = s.
Proof.
  intros Hno. unfold withoutCommas, indianGrouping.
  rewrite chars_ofChars, filter_rev.
  assert (Hrev : ~ In ","%char (rev (chars s))).
  { intros Hin. apply Hno. apply in_rev. exact Hin. }
  assert (Hkeep : forall c : ascii, c <> ","%char -> notComma c = true).
  { intros c Hc. unfold notComma. destruct (Ascii.eqb_spec c ","); [contradiction|].
    reflexivity. }
  assert (E : List.filter notComma (indianRev (rev (chars s))) = rev (chars s)).
  { destruct (rev (chars s)) as [|a [|b [|c rest]]] eqn:El.
    - reflexivity.
    - simpl. rewrite Hkeep; [reflexivity|]. intros ->. apply Hrev. simpl. auto.
    - simpl. rewrite (Hkeep a), (Hkeep b); [reflexivity| |];
        intros ->; apply Hrev; simpl; auto.
    - cbn [indianRev List.filter].
      rewrite (Hkeep a), (Hkeep b), (Hkeep c);
        try (intros ->; apply Hrev; simpl; auto).
      rewrite (furtherGroups_strip (List.length rest)); [reflexivity|lia|].
      intros Hin. apply Hrev. simpl. auto. }
  rewrite E, rev_involutive. apply ofChars_chars.
Qed.

(** X30: [formatPriceForDisplay] groups the integer digits the Indian way.
    When the formatted price prints as an integer part and a fraction around
    one dot, the result is the currency, the integer part with a comma
    before its last three digits and before every two digits above them (and
    none in front), the dot and the fraction; taking the commas out gives
    the integer part back. *)
Theorem formatPriceForDisplay_indian_grouping (toFixed2 : number -> string)
    (price p : number) (currency intPart frac : string) :
  formatPrice price = Ok p ->
  toFixed2 p = (intPart ++ "." ++ frac)%string ->
  ~ In "."%char (chars intPart) ->
  ~ In "."%char (chars frac) ->
  exists grouped,
    formatPriceForDisplay toFixed2 price currency
    = Ok (currency ++ grouped ++ "." ++ frac)%string
    /\ grouped = indianGrouping intPart
    /\ (~ In ","%char (chars intPart) -> withoutCommas grouped = intPart).
Proof.
  intros Hfmt Hprint Hint Hfrac.
  exists (indianGrouping intPart). split; [|split; [reflexivity|]].
  - unfold formatPriceForDisplay. rewrite Hfmt. cbn [bind]. rewrite Hprint.
    change (intPart ++ "." ++ frac)%string with (intPart ++ String "." frac)%string.
    rewrite splitDot_app by exact Hint.
    rewrite splitDot_nodot by exact Hfrac.
    unfold part. cbn [nth]. rewrite groupLoop_indian. reflexivity.
  - apply indianGrouping_strip.
Qed.

Lemma formatPriceForDisplay_indian_grouping_witness :
  exists grouped,
    formatPriceForDisplay Sample.toFixed2 (dec 12345675 10) "Rs"
    = Ok ("Rs" ++ grouped ++ "." ++ "50")%string
    /\ grouped = "12,34,567"%string
    /\ withoutCommas grouped = "1234567"%string.
Proof.
  assert (Hfmt : formatPrice (dec 12345675 10) = Ok (round2 (dec 12345675 10)))
    by (vm_compute; reflexivity).
  destruct (formatPriceForDisplay_indian_grouping Sample.toFixed2
              (dec 12345675 10) (round2 (dec 12345675 10)) "Rs" "1234567" "50")
    as (grouped & Hcall & Hgrouped & Hstrip).
  - exact Hfmt.
  - vm_compute. reflexivity.
  - simpl. intros H. repeat destruct H as [H|H]; try discriminate; exact H.
  - simpl. intros H. repeat destruct H as [H|H]; try discriminate; exact H.
  - exists grouped. split; [exact Hcall|]. split; [exact Hgrouped|].
    apply Hstrip.
    simpl. intros H. repeat destruct H as [H|H]; try discriminate; exact H.
Defined.

(** ** Cache keys of the service *)

Lemma append_assoc (a b c : string) : ((a ++ b) ++ c = a ++ (b ++ c))%string.
Proof.
  induction a as [|x a IH]; [reflexivity|].
  change (String x ((a ++ b) ++ c) = String x (a ++ (b ++ c)))%string.
  rewrite IH. reflexivity.
Qed.

Lemma generateCacheKey_hyphen (q1 q2 : ProductQuery.t) (b : string) :
  ProductQuery.name q1 = (ProductQuery.name q2 ++ "-" ++ b)%string ->
  ProductQuery.category q2 = (b ++ "-" ++ ProductQuery.category q1)%string ->
  ProductQuery.location q2 = ProductQuery.location q1 ->
  PriceDiscoveryService.generateCacheKey q2 = PriceDiscoveryService.generateCacheKey q1.
Proof.
  intros Hn Hc Hl. unfold PriceDiscoveryService.generateCacheKey.
  rewrite Hn, Hc, Hl. rewrite !append_assoc. reflexivity.
Qed.

(** X7: the cache key of the service joins name, category and location with
    hyphens, so it does not tell the fields apart: a query named "a-b" in
    category "c" and a query named "a" in category "b-c" at the same
    location have one key.  After the first is priced on an empty cache, the
    second, asked within five minutes, is answered with the first one's
    price and the source is not asked. *)
Theorem hyphenated_queries_share_price (Math_sqrt : number -> number)
    (clk1 clk2 : Clock) (adapter1 adapter2 : MarketDataAdapter) (ai1 ai2 : AIService)
    (q1 q2 : ProductQuery.t) (b : string)
    (s' : PriceDiscoveryService.t) (p : PriceInfo.t) :
  ProductQuery.name q1 = (ProductQuery.name q2 ++ "-" ++ b)%string ->
  ProductQuery.category q2 = (b ++ "-" ++ ProductQuery.category q1)%string ->
  ProductQuery.location q2 = ProductQuery.location q1 ->
  PriceDiscoveryService.getCurrentPrice Math_sqrt clk1 adapter1 ai1 q1
    PriceDiscoveryService.create = (Ok p, s') ->
  isValid (validateProductQuery q2) = true ->
  now clk2 - now clk1 < 5 * 60 * 1000 ->
  PriceDiscoveryService.getCurrentPrice Math_sqrt clk2 adapter2 ai2 q2 s' = (Ok p, s').
Proof.
  intros Hn Hc Hl Hfirst Hvalid Hfresh.
  pose proof (generateCacheKey_hyphen q1 q2 b Hn Hc Hl) as Hkey.
  destruct (getCurrentPrice_cases _ _ _ _ _ _ _ _ Hfirst)
    as [[_ ->] | (e & He & _)].
  - unfold PriceDiscoveryService.getCurrentPrice. rewrite Hvalid. cbn [negb].
    cbn [PriceDiscoveryService.priceCache]. rewrite Hkey, lookup_insert_eq.
    cbn [PriceDiscoveryService.timestamp PriceDiscoveryService.data].
    unfold PriceDiscoveryService.isCacheValid, PriceDiscoveryService.CACHE_TTL_MS.
    replace (now clk2 - now clk1 <? 5 * 60 * 1000) with true; [reflexivity|].
    symmetry. apply Z.ltb_lt. exact Hfresh.
  - unfold PriceDiscoveryService.create in He.
    cbn [PriceDiscoveryService.priceCache] in He.
    rewrite lookup_empty in He. discriminate.
Qed.

Lemma hyphenated_queries_share_price_witness :
  exists p s',
    PriceDiscoveryService.getCurrentPrice Sample.sqrtApprox Sample.noon
      (Sample.historySource []) Sample.aiDown Sample.redOnion
      PriceDiscoveryService.create = (Ok p, s')
    /\ PriceDiscoveryService.getCurrentPrice Sample.sqrtApprox Sample.noonPlusOne
         Sample.tomatoSource Sample.aiDown Sample.red s' = (Ok p, s').
Proof.
  eexists. eexists.
  assert (E : PriceDiscoveryService.getCurrentPrice Sample.sqrtApprox Sample.noon
      (Sample.historySource []) Sample.aiDown Sample.redOnion
      PriceDiscoveryService.create = (Ok _, _)) by (vm_compute; reflexivity).
  split; [exact E|].
  apply (hyphenated_queries_share_price Sample.sqrtApprox Sample.noon
           Sample.noonPlusOne (Sample.historySource []) Sample.tomatoSource
           Sample.aiDown Sample.aiDown Sample.redOnion Sample.red "onion").
  - reflexivity.
  - reflexivity.
  - reflexivity.
  - exact E.
  - vm_compute. reflexivity.
  - vm_compute. reflexivity.
Defined.
